(** * Todo-AI-Backend: the CRUD handlers and the intent resolver

    A shallow embedding of [index.js] (the four CRUD handlers over the
    [todos] table) and [gemini.js] (the natural-language endpoint that
    resolves a parsed intent to one CRUD call), followed by the properties
    the specification states about them.

    Conventions of the embedding.
    - JavaScript values that the code inspects with [typeof] or tests for
      truthiness are kept as [JsValue]; JSON numbers are taken at integer
      values, the type the data model gives to [id] and [position].
    - Strings are ASCII strings; [toLowerCase], [trim] and the class [\s]
      are the ASCII fragments of the JavaScript ones.
    - The hosted table is an explicit state ([Store]) threaded through the
      handlers, together with the list of external calls made so far.
    - An [async] function either returns a value or rejects
      ([Completion]). *)

From Stdlib Require Import ZArith List String Ascii Bool Lia Permutation.
Import ListNotations.

Open Scope string_scope.
Open Scope Z_scope.

(** ** JavaScript values *)

Inductive JsValue : Type :=
| JUndefined
| JNull
| JBool (b : bool)
| JNum (n : Z)
| JStr (s : string)
| JObj.   (* an object or an array: truthy, [typeof] is 'object' *)

(** [typeof v === 'number'] *)
Definition typeof_number (v : JsValue) : bool :=
  match v with JNum _ => true | _ => false end.

(** [typeof v === 'string'] *)
Definition typeof_string (v : JsValue) : bool :=
  match v with JStr _ => true | _ => false end.

(** [typeof v === 'boolean'] *)
Definition typeof_boolean (v : JsValue) : bool :=
  match v with JBool _ => true | _ => false end.

(** The value of [v] in a condition: [if (v)]. *)
Definition truthy (v : JsValue) : bool :=
  match v with
  | JUndefined | JNull => false
  | JBool b => b
  | JNum n => negb (n =? 0)
  | JStr s => negb (String.eqb s "")
  | JObj => true
  end.

(** The outcome of awaiting an [async] function. *)
Inductive Completion (A : Type) : Type :=
| Return (a : A)
| Throw (err : string).
Arguments Return {A} a.
Arguments Throw {A} err.

(** ** Strings *)

(** The ASCII members of the white space that [trim] and [\s] remove:
    TAB, LF, VT, FF, CR and SPACE. *)
Definition is_space (c : ascii) : bool :=
  let n := nat_of_ascii c in
  ((9 <=? n)%nat && (n <=? 13)%nat) || (n =? 32)%nat.

Fixpoint trimStart (s : string) : string :=
  match s with
  | EmptyString => EmptyString
  | String c s' => if is_space c then trimStart s' else s
  end.

Fixpoint trimEnd (s : string) : string :=
  match s with
  | EmptyString => EmptyString
  | String c s' =>
      match trimEnd s' with
      | EmptyString => if is_space c then EmptyString else String c EmptyString
      | r => String c r
      end
  end.

(** [s.trim()] *)
Definition trim (s : string) : string := trimEnd (trimStart s).

(** [s.startsWith(p)] *)
Fixpoint starts_with (p s : string) : bool :=
  match p, s with
  | EmptyString, _ => true
  | String a p', String b s' => Ascii.eqb a b && starts_with p' s'
  | String _ _, EmptyString => false
  end.

Fixpoint drop (n : nat) (s : string) : string :=
  match n, s with
  | O, _ => s
  | S n', String _ s' => drop n' s'
  | S _, EmptyString => EmptyString
  end.

Definition fence_open : string := "```json".
Definition fence_close : string := "```".

(** [s.replace(/^```json\s*/, '')]: the marker is looked for at the start
    only, and the greedy [\s*] takes all the white space after it. *)
Definition strip_fence_open (s : string) : string :=
  if starts_with fence_open s
  then trimStart (drop (String.length fence_open) s)
  else s.

(** [s.replace(/```$/, '')]: without the [m] flag [$] is the end of the
    string, so the only possible match is the last three characters. *)
Fixpoint strip_fence_close (s : string) : string :=
  match s with
  | EmptyString => EmptyString
  | String c s' =>
      if String.eqb s fence_close then EmptyString
      else String c (strip_fence_close s')
  end.

(** gemini.js, [cleanJsonString]. *)
Definition cleanJsonString (str : string) : string :=
  trim (strip_fence_close (strip_fence_open (trim str))).

(** [c.toLowerCase()] on one ASCII character. *)
Definition lower_ascii (c : ascii) : ascii :=
  let n := nat_of_ascii c in
  if ((65 <=? n)%nat && (n <=? 90)%nat)%bool then ascii_of_nat (n + 32) else c.

(** [s.toLowerCase()] *)
Fixpoint toLowerCase (s : string) : string :=
  match s with
  | EmptyString => EmptyString
  | String c s' => String (lower_ascii c) (toLowerCase s')
  end.

(** [s.includes(sub)] *)
Fixpoint includes (s sub : string) : bool :=
  starts_with sub s ||
  match s with
  | EmptyString => false
  | String _ s' => includes s' sub
  end.

(** ** Data model *)

(** A row of the [todos] table. *)
Record Todo : Type := mkTodo {
  todo_id : Z;
  todo_task : string;
  todo_done : bool
}.

(** The object [JSON.parse] yields for the model's answer, at the fields
    the resolver reads; a field that is absent reads as [JUndefined]. *)
Record Parsed : Type := mkParsed {
  parsed_intent : JsValue;
  parsed_id : JsValue;
  parsed_position : JsValue;
  parsed_task : JsValue;
  parsed_newTask : JsValue;
  parsed_done : JsValue
}.

(** The Express request at the fields the handlers read or assign:
    [req.params.id], [req.body.prompt], [req.body.task], [req.body.done]. *)
Record Request : Type := mkRequest {
  params_id : JsValue;
  body_prompt : JsValue;
  body_task : JsValue;
  body_done : JsValue
}.

Definition set_params_id (v : JsValue) (req : Request) : Request :=
  mkRequest v (body_prompt req) (body_task req) (body_done req).

Definition set_body_task (v : JsValue) (req : Request) : Request :=
  mkRequest (params_id req) (body_prompt req) v (body_done req).

Definition set_body_done (v : JsValue) (req : Request) : Request :=
  mkRequest (params_id req) (body_prompt req) (body_task req) v.

(** The [error] field of an error body.  The two messages built with a
    template literal keep the interpolated value apart. *)
Inductive ErrorMessage : Type :=
| Message (text : string)
| NoTaskAtPosition (position : JsValue)   (* `No task found at position ${position}` *)
| NoTaskMatching (task : JsValue).        (* `No task found matching "${task}"` *)

(** What [res.json(...)] is given. *)
Inductive Body : Type :=
| ErrorBody (error : ErrorMessage)
| TodoBody (t : Todo)
| TodosBody (l : list Todo)
| UndefinedBody.

(** [res.status(status).json(body)] *)
Record Response : Type := mkResponse {
  status : Z;
  body : Body
}.

(** ** The store *)

(** The hosted table: its rows in the order [select('*')] returns them,
    the id the next insert is given, and whether the backend is failing
    (then every query comes back with that error). *)
Record Store : Type := mkStore {
  rows : list Todo;
  next_id : Z;
  outage : option string
}.

(** The external calls a handler can make. *)
Inductive Call : Type :=
| CallInsert
| CallSelect
| CallUpdate
| CallDelete
| CallGenerate.

(** The world a request runs in: the table and the calls made so far,
    oldest first. *)
Record World : Type := mkWorld {
  db : Store;
  calls : list Call
}.

Definition record_call (c : Call) (w : World) : World :=
  mkWorld (db w) (calls w ++ [c]).

Definition with_rows (l : list Todo) (n : Z) (w : World) : World :=
  mkWorld (mkStore l n (outage (db w))) (calls w).

(** The [{ data, error }] a query resolves to. *)
Inductive QueryResult : Type :=
| QError (message : string)
| QData (data : list Todo).

(** What the text-generation call comes to: the [fetch] (or the reading
    of its body) throws, the body carries an [error], or the text found
    at [candidates[0].content.parts[0].text] (possibly [undefined]). *)
Inductive Generated : Type :=
| GenThrows (err : string)
| GenError (message : string)
| GenText (rawText : JsValue).

(** What [JSON.parse] comes to: a [SyntaxError], the value [null], or a
    value whose fields can be read. *)
Inductive ParseResult : Type :=
| ParseFails
| ParsedNull
| ParsedValue (parsed : Parsed).

Definition has_id (i : Z) (t : Todo) : bool := todo_id t =? i.

Definition set_done (b : bool) (t : Todo) : Todo :=
  mkTodo (todo_id t) (todo_task t) b.

(** What [update({ done })] filtered by [eq('id', i)] does to a row. *)
Definition patched (i : Z) (b : bool) (t : Todo) : Todo :=
  if has_id i t then set_done b t else t.

Section Backend.

(** How the store reads a JSON value sent for a column of another type
    ([None]: the query fails).  Values of the column's own JSON type are
    taken as they are; these three functions decide the rest. *)
Variable cast_id : JsValue -> option Z.
Variable cast_text : JsValue -> option string.
Variable cast_bool : JsValue -> option bool.

(** The text-generation service, as a function of the user's prompt (the
    instruction text around it is fixed), and [JSON.parse]. *)
Variable generate : JsValue -> Generated.
Variable JSON_parse : string -> ParseResult.

Definition cast_error : string := "invalid input syntax".

Definition column_id (v : JsValue) : option Z :=
  match v with JNum n => Some n | _ => cast_id v end.

Definition column_text (v : JsValue) : option string :=
  match v with JStr s => Some s | _ => cast_text v end.

Definition column_bool (v : JsValue) : option bool :=
  match v with JBool b => Some b | _ => cast_bool v end.

(** [supabase.from('todos').insert([{ task }]).select()] *)
Definition supabase_insert (task : JsValue) (w : World) : QueryResult * World :=
  let w1 := record_call CallInsert w in
  match outage (db w) with
  | Some m => (QError m, w1)
  | None =>
      match column_text task with
      | None => (QError cast_error, w1)
      | Some s =>
          let r := mkTodo (next_id (db w)) s false in
          (QData [r], with_rows (rows (db w) ++ [r]) (next_id (db w) + 1) w1)
      end
  end.

(** [supabase.from('todos').select('*')] *)
Definition supabase_select (w : World) : QueryResult * World :=
  let w1 := record_call CallSelect w in
  match outage (db w) with
  | Some m => (QError m, w1)
  | None => (QData (rows (db w)), w1)
  end.

(** [supabase.from('todos').update({ done }).eq('id', id).select()].
    A [done] that is [undefined] is dropped when the patch is serialised:
    the patch is empty, nothing is written and no row comes back.
    The store does not say where a row it has updated comes in later
    selects; here it stays in its place, and what is stated below about
    the table after an update is stated up to the order of its rows. *)
Definition supabase_update (done id : JsValue) (w : World) : QueryResult * World :=
  let w1 := record_call CallUpdate w in
  match outage (db w) with
  | Some m => (QError m, w1)
  | None =>
      match column_id id with
      | None => (QError cast_error, w1)
      | Some i =>
          match done with
          | JUndefined => (QData [], w1)
          | _ =>
              match column_bool done with
              | None => (QError cast_error, w1)
              | Some b =>
                  let rows' := map (patched i b) (rows (db w)) in
                  (QData (filter (has_id i) rows'),
                   with_rows rows' (next_id (db w)) w1)
              end
          end
      end
  end.

(** [supabase.from('todos').delete().eq('id', id).select()] *)
Definition supabase_delete (id : JsValue) (w : World) : QueryResult * World :=
  let w1 := record_call CallDelete w in
  match outage (db w) with
  | Some m => (QError m, w1)
  | None =>
      match column_id id with
      | None => (QError cast_error, w1)
      | Some i =>
          (QData (filter (has_id i) (rows (db w))),
           with_rows (filter (fun t => negb (has_id i t)) (rows (db w)))
                     (next_id (db w)) w1)
      end
  end.

(** ** index.js: the CRUD handlers *)

Definition json (st : Z) (b : Body) : Completion Response :=
  Return (mkResponse st b).

(** [data[0]] *)
Definition first_row (data : list Todo) : Body :=
  match data with
  | t :: _ => TodoBody t
  | [] => UndefinedBody
  end.

Definition CreateTodo (req : Request) (w : World) : Completion Response * World :=
  let task := body_task req in
  if negb (truthy task) then
    (json 400 (ErrorBody (Message "Title and description are required")), w)
  else
    match supabase_insert task w with
    | (QError m, w1) => (json 500 (ErrorBody (Message m)), w1)
    | (QData data, w1) => (json 201 (first_row data), w1)
    end.

(** What [GetTodos] comes to: with a [res] it answers, without one it
    returns the rows. *)
Inductive Listing : Type :=
| Answered (r : Response)
| Rows (data : list Todo).

(** [GetTodos(req, res)]; [res] tells whether a response object was
    passed (the two lookups of gemini.js call [GetTodos()]). *)
Definition GetTodos (res : bool) (w : World) : Completion Listing * World :=
  match supabase_select w with
  | (QError m, w1) =>
      if res then (Return (Answered (mkResponse 500 (ErrorBody (Message m)))), w1)
      else (Throw m, w1)
  | (QData data, w1) =>
      if res then (Return (Answered (mkResponse 200 (TodosBody data))), w1)
      else (Return (Rows data), w1)
  end.

Definition UpdateTodo (req : Request) (w : World) : Completion Response * World :=
  let id := params_id req in
  let done := body_done req in
  match supabase_update done id w with
  | (QError m, w1) => (json 500 (ErrorBody (Message m)), w1)
  | (QData data, w1) => (json 200 (TodosBody data), w1)
  end.

Definition DeleteTodo (req : Request) (w : World) : Completion Response * World :=
  let id := params_id req in
  match supabase_delete id w with
  | (QError m, w1) => (json 500 (ErrorBody (Message m)), w1)
  | (QData data, w1) => (json 200 (TodosBody data), w1)
  end.

(** ** gemini.js: the intent resolver *)

(** The index [findTodoIdByPosition] computes from a position and the
    length of the list. *)
Definition position_index (position length : Z) : Z :=
  if position >? 0 then position - 1 else length + position.

(** The two lookups call [GetTodos()] with no [res]: it returns the rows
    or throws, and a throw is theirs too.  They return [null] or an id. *)
Definition findTodoIdByPosition (position : Z) (w : World)
  : Completion JsValue * World :=
  match GetTodos false w with
  | (Throw e, w1) => (Throw e, w1)
  | (Return (Answered _), w1) => (Return JNull, w1)
  | (Return (Rows todos), w1) =>
      let length := Z.of_nat (List.length todos) in
      if length =? 0 then (Return JNull, w1)
      else
        let index := position_index position length in
        if (index <? 0) || (index >=? length) then (Return JNull, w1)
        else
          match nth_error todos (Z.to_nat index) with
          | Some t => (Return (JNum (todo_id t)), w1)
          | None => (Throw "TypeError", w1)
          end
  end.

Definition findTodoIdByPartialTaskName (taskText : string) (w : World)
  : Completion JsValue * World :=
  match GetTodos false w with
  | (Throw e, w1) => (Throw e, w1)
  | (Return (Answered _), w1) => (Return JNull, w1)
  | (Return (Rows todos), w1) =>
      if Z.of_nat (List.length todos) =? 0 then (Return JNull, w1)
      else
        let lowerTaskText := toLowerCase taskText in
        match find (fun t => includes (toLowerCase (todo_task t)) lowerTaskText)
                   todos with
        | Some todo => (Return (JNum (todo_id todo)), w1)
        | None => (Return JNull, w1)
        end
  end.

(** The lines each branch of [handleUpdateIntent] runs once it holds an
    id: set [req.params.id], copy a boolean [done], copy a truthy
    [newTask] into [req.body.task]. *)
Definition update_request (id : JsValue) (parsed : Parsed) (req : Request) : Request :=
  let req1 := set_params_id id req in
  let req2 := if typeof_boolean (parsed_done parsed)
              then set_body_done (parsed_done parsed) req1 else req1 in
  if truthy (parsed_newTask parsed)
  then set_body_task (parsed_newTask parsed) req2 else req2.

Definition handleUpdateIntent (parsed : Parsed) (req : Request) (w : World)
  : Completion Response * World :=
  match parsed_id parsed with
  | JNum n => UpdateTodo (update_request (JNum n) parsed req) w
  | _ =>
    match parsed_position parsed with
    | JNum position =>
        match findTodoIdByPosition position w with
        | (Throw e, w1) => (Throw e, w1)
        | (Return id, w1) =>
            if negb (truthy id) then
              (json 404 (ErrorBody (NoTaskAtPosition (parsed_position parsed))), w1)
            else UpdateTodo (update_request id parsed req) w1
        end
    | _ =>
      match parsed_task parsed with
      | JStr task =>
          match findTodoIdByPartialTaskName task w with
          | (Throw e, w1) => (Throw e, w1)
          | (Return id, w1) =>
              if negb (truthy id) then
                (json 404 (ErrorBody (NoTaskMatching (parsed_task parsed))), w1)
              else UpdateTodo (update_request id parsed req) w1
          end
      | _ =>
          (json 400 (ErrorBody
             (Message "Need either id, position, or task text for update")), w)
      end
    end
  end.

Definition handleDeleteIntent (parsed : Parsed) (req : Request) (w : World)
  : Completion Response * World :=
  match parsed_id parsed with
  | JNum n => DeleteTodo (set_params_id (JNum n) req) w
  | _ =>
    match parsed_position parsed with
    | JNum position =>
        match findTodoIdByPosition position w with
        | (Throw e, w1) => (Throw e, w1)
        | (Return id, w1) =>
            if negb (truthy id) then
              (json 404 (ErrorBody (NoTaskAtPosition (parsed_position parsed))), w1)
            else DeleteTodo (set_params_id id req) w1
        end
    | _ =>
      match parsed_task parsed with
      | JStr task =>
          match findTodoIdByPartialTaskName task w with
          | (Throw e, w1) => (Throw e, w1)
          | (Return id, w1) =>
              if negb (truthy id) then
                (json 404 (ErrorBody (NoTaskMatching (parsed_task parsed))), w1)
              else DeleteTodo (set_params_id id req) w1
          end
      | _ =>
          (json 400 (ErrorBody
             (Message "Need either id, position, or task text for delete")), w)
      end
    end
  end.

(** The [switch (parsed.intent)] of [handleAiPrompt]. *)
Definition dispatch (parsed : Parsed) (req : Request) (w : World)
  : Completion Response * World :=
  match parsed_intent parsed with
  | JStr intent =>
      if String.eqb intent "create" then
        if negb (truthy (parsed_task parsed)) then
          (json 400 (ErrorBody (Message "Task description required for create")), w)
        else CreateTodo (set_body_task (parsed_task parsed) req) w
      else if String.eqb intent "read" then
        match GetTodos true w with
        | (Return (Answered r), w1) => (Return r, w1)
        | (Return (Rows _), w1) => (Throw "GetTodos returned rows", w1)
        | (Throw e, w1) => (Throw e, w1)
        end
      else if String.eqb intent "update" then handleUpdateIntent parsed req w
      else if String.eqb intent "delete" then handleDeleteIntent parsed req w
      else (json 400 (ErrorBody (Message "Unknown intent from AI")), w)
  | _ => (json 400 (ErrorBody (Message "Unknown intent from AI")), w)
  end.

Definition ai_failure : Completion Response :=
  json 500 (ErrorBody (Message "Failed to process AI request")).

Definition handleAiPrompt (req : Request) (w : World) : Completion Response * World :=
  let prompt := body_prompt req in
  if negb (truthy prompt) then
    (json 400 (ErrorBody (Message "Prompt is required")), w)
  else
    let w1 := record_call CallGenerate w in
    match generate prompt with
    | GenThrows _ => (ai_failure, w1)
    | GenError m => (json 500 (ErrorBody (Message m)), w1)
    | GenText rawText =>
        if negb (truthy rawText) then
          (json 500 (ErrorBody (Message "No response from Gemini")), w1)
        else
          match rawText with
          | JStr text =>
              match JSON_parse (cleanJsonString text) with
              | ParseFails =>
                  (json 500 (ErrorBody
                     (Message "Failed to parse Gemini response as JSON")), w1)
              | ParsedNull => (ai_failure, w1)
              | ParsedValue parsed => dispatch parsed req w1
              end
          | _ => (ai_failure, w1)
          end
    end.

End Backend.

(** ** Vocabulary of the specification *)

Fixpoint all_space (s : string) : bool :=
  match s with
  | EmptyString => true
  | String c s' => is_space c && all_space s'
  end.

Definition first_char (s : string) : option ascii :=
  match s with
  | EmptyString => None
  | String c _ => Some c
  end.

Fixpoint last_char (s : string) : option ascii :=
  match s with
  | EmptyString => None
  | String c EmptyString => Some c
  | String _ s' => last_char s'
  end.

Definition is_digit (n : nat) : bool := ((48 <=? n) && (n <=? 57))%nat.

(** The characters a JSON value can begin with: an opening brace or
    bracket, a double quote, a minus sign, a digit, or the first letter
    of [true], [false], [null]. *)
Definition json_start (c : ascii) : bool :=
  let n := nat_of_ascii c in
  ((n =? 123) || (n =? 91) || (n =? 34) || (n =? 45) || is_digit n
   || (n =? 116) || (n =? 102) || (n =? 110))%nat.

(** The characters a JSON value can end with: a closing brace or bracket,
    a double quote, a digit, or the last letter of [true], [false],
    [null]. *)
Definition json_end (c : ascii) : bool :=
  let n := nat_of_ascii c in
  ((n =? 125) || (n =? 93) || (n =? 34) || is_digit n
   || (n =? 101) || (n =? 108))%nat.

(** A text that, white space around it apart, begins and ends the way a
    JSON value does.  Every text [JSON.parse] accepts is of this shape. *)
Definition json_shaped (s : string) : bool :=
  match first_char (trim s), last_char (trim s) with
  | Some a, Some b => json_start a && json_end b
  | _, _ => false
  end.

(** A model response in a fence: the opening marker, the content, the
    closing marker, with white space allowed around the whole. *)
Definition fenced (ws1 content ws2 : string) : string :=
  ws1 ++ fence_open ++ content ++ fence_close ++ ws2.

(** Case-insensitive containment, as the specification words it: the
    lower-cased fragment occurs somewhere in the lower-cased text. *)
Definition contains_ci (text fragment : string) : Prop :=
  exists pre post, toLowerCase text = pre ++ toLowerCase fragment ++ post.

(** The records of a list other than the one with id [i]. *)
Definition others (i : Z) (l : list Todo) : list Todo :=
  filter (fun t => negb (has_id i t)) l.

(** The index the specification gives for a position in a list of
    [n] records. *)
Definition spec_index (p n : Z) : Z :=
  if Z_gt_dec p 0 then p - 1 else n + p.

Definition in_range (i n : Z) : Prop := 0 <= i < n.

(** The same parsed intent with another [position], another [task]. *)
Definition with_position (v : JsValue) (parsed : Parsed) : Parsed :=
  mkParsed (parsed_intent parsed) (parsed_id parsed) v (parsed_task parsed)
           (parsed_newTask parsed) (parsed_done parsed).

Definition with_task (v : JsValue) (parsed : Parsed) : Parsed :=
  mkParsed (parsed_intent parsed) (parsed_id parsed) (parsed_position parsed) v
           (parsed_newTask parsed) (parsed_done parsed).

(** ** Sample data *)

(** A store that rejects every value that is not of its column's type. *)
Definition strict_id (_ : JsValue) : option Z := None.
Definition strict_text (_ : JsValue) : option string := None.
Definition strict_bool (_ : JsValue) : option bool := None.

Definition buy_milk : Todo := mkTodo 1 "Buy milk" false.
Definition read_book : Todo := mkTodo 2 "Read book" false.

(** The two-record table of the specification's scenarios. *)
Definition two_todos : World :=
  mkWorld (mkStore [buy_milk; read_book] 3 None) [].

Definition empty_table : World := mkWorld (mkStore [] 1 None) [].

Definition empty_request : Request :=
  mkRequest JUndefined JUndefined JUndefined JUndefined.

Definition ai_request (prompt : string) : Request :=
  mkRequest JUndefined (JStr prompt) JUndefined JUndefined.

Definition update_intent (id position task newTask done : JsValue) : Parsed :=
  mkParsed (JStr "update") id position task newTask done.

Definition delete_intent (id position task : JsValue) : Parsed :=
  mkParsed (JStr "delete") id position task JUndefined JUndefined.

Definition newline : string := String (ascii_of_nat 10) EmptyString.

(** ** What a request can do to the world *)

(** The ways a handler can leave the table: as it was, with one row
    appended under the next id, with the [done] flag of the rows of one
    id set, or without the rows of one id. *)
Inductive Transition (s : Store) : Store -> Prop :=
| Unchanged :
    Transition s s
| Inserted (task : string) :
    Transition s (mkStore (rows s ++ [mkTodo (next_id s) task false])
                          (next_id s + 1) (outage s))
| Patched (i : Z) (b : bool) :
    Transition s (mkStore (map (patched i b) (rows s)) (next_id s) (outage s))
| Removed (i : Z) :
    Transition s (mkStore (others i (rows s)) (next_id s) (outage s)).

(** The ids of the table are pairwise distinct and below the next id. *)
Definition ids_fresh (s : Store) : Prop :=
  NoDup (map todo_id (rows s))
  /\ forall t, In t (rows s) -> todo_id t < next_id s.

(** The external calls one request to the natural-language endpoint can
    make after the text-generation call. *)
Definition store_calls : list (list Call) :=
  [ []; [CallInsert]; [CallSelect]; [CallUpdate]; [CallDelete];
    [CallSelect; CallUpdate]; [CallSelect; CallDelete] ].

(** A handler took the world from [w] to [w']: it made the calls [l], in
    that order, and the table went through one transition. *)
Definition effect (l : list Call) (w w' : World) : Prop :=
  calls w' = (calls w ++ l)%list /\ Transition (db w) (db w').

(** The same world with the backend failing with message [m]. *)
Definition failing (m : string) (w : World) : World :=
  mkWorld (mkStore (rows (db w)) (next_id (db w)) (Some m)) (calls w).

(** A request that carries only a task, only an id, an id and a [done]. *)
Definition task_request (task : string) : Request :=
  mkRequest JUndefined JUndefined (JStr task) JUndefined.

Definition id_request (i : Z) : Request :=
  mkRequest (JNum i) JUndefined JUndefined JUndefined.

Definition done_request (i : Z) (b : bool) : Request :=
  mkRequest (JNum i) JUndefined JUndefined (JBool b).

(** A text-generation service that answers with some text, and a parser
    that reads a given intent out of it. *)
Definition model_reply (_ : JsValue) : Generated := GenText (JStr "{ }").

Definition parses_to (parsed : Parsed) (_ : string) : ParseResult :=
  ParsedValue parsed.

(** The request has a prompt, the service answers it with a non-empty
    text, and the cleaned text parses to [parsed]. *)
Definition understood
    (generate : JsValue -> Generated) (JSON_parse : string -> ParseResult)
    (req : Request) (parsed : Parsed) : Prop :=
  truthy (body_prompt req) = true
  /\ exists text,
       text <> ""
       /\ generate (body_prompt req) = GenText (JStr text)
       /\ JSON_parse (cleanJsonString text) = ParsedValue parsed.

(** A table whose first record has id 0. *)
Definition zero_first : World :=
  mkWorld (mkStore [mkTodo 0 "Water plants" false; read_book] 3 None) [].

(** ** Strings: trimming and the fence *)

Lemma append_assoc (a b c : string) : (a ++ b) ++ c = a ++ b ++ c.
Proof. induction a as [|x a IH]; simpl; [reflexivity | now rewrite IH]. Qed.

Lemma length_append (a b : string) :
  String.length (a ++ b) = (String.length a + String.length b)%nat.
Proof. induction a as [|x a IH]; simpl; [reflexivity | now rewrite IH]. Qed.

Lemma trimStart_skips (ws s : string) :
  all_space ws = true -> trimStart (ws ++ s) = trimStart s.
Proof.
  induction ws as [|c ws IH]; simpl; intros H; [reflexivity|].
  apply andb_true_iff in H as [Hc Hws]. rewrite Hc. auto.
Qed.

Lemma trimStart_keeps (b t : string) :
  trimStart t = t -> trimStart (b ++ t) = trimStart b ++ t.
Proof.
  intros Ht. induction b as [|c b IH]; simpl; [exact Ht|].
  destruct (is_space c); [exact IH | reflexivity].
Qed.

Lemma trimStart_idem (s : string) : trimStart (trimStart s) = trimStart s.
Proof.
  induction s as [|c s IH]; simpl; [reflexivity|].
  destruct (is_space c) eqn:E; [exact IH | simpl; now rewrite E].
Qed.

Lemma trimEnd_all_space (ws : string) : all_space ws = true -> trimEnd ws = "".
Proof.
  induction ws as [|c ws IH]; simpl; intros H; [reflexivity|].
  apply andb_true_iff in H as [Hc Hws]. rewrite (IH Hws), Hc. reflexivity.
Qed.

Lemma trimEnd_skips (s ws : string) :
  all_space ws = true -> trimEnd (s ++ ws) = trimEnd s.
Proof.
  intros H. induction s as [|c s IH]; simpl.
  - now apply trimEnd_all_space.
  - now rewrite IH.
Qed.

Lemma trimEnd_keeps (b t : string) :
  trimEnd t = t -> t <> "" -> trimEnd (b ++ t) = b ++ t.
Proof.
  intros Ht Hne. induction b as [|c b IH]; simpl; [exact Ht|].
  rewrite IH. destruct (b ++ t) eqn:E; [|reflexivity].
  destruct b; simpl in E; [contradiction | discriminate].
Qed.

Lemma trimEnd_idem (s : string) : trimEnd (trimEnd s) = trimEnd s.
Proof.
  induction s as [|c s IH]; simpl; [reflexivity|].
  destruct (trimEnd s) as [|d r] eqn:E.
  - destruct (is_space c) eqn:Ec; simpl; [reflexivity | now rewrite Ec].
  - change (trimEnd (String c (String d r)))
      with (match trimEnd (String d r) with
            | EmptyString => if is_space c then EmptyString else String c EmptyString
            | x => String c x
            end).
    now rewrite IH.
Qed.

Lemma trimStart_first (s : string) (c : ascii) :
  first_char s = Some c -> is_space c = false -> trimStart s = s.
Proof.
  destruct s as [|d s]; simpl; [discriminate|].
  intros [= ->] ->. reflexivity.
Qed.

Lemma strip_fence_close_app (x : string) :
  strip_fence_close (x ++ fence_close) = x.
Proof.
  induction x as [|c x IH]; [reflexivity|].
  change (strip_fence_close (String c x ++ fence_close))
    with (if String.eqb (String c (x ++ fence_close)) fence_close
          then EmptyString
          else String c (strip_fence_close (x ++ fence_close))).
  destruct (String.eqb_spec (String c (x ++ fence_close)) fence_close) as [E|_].
  - apply (f_equal String.length) in E. simpl in E.
    rewrite length_append in E. simpl in E. lia.
  - now rewrite IH.
Qed.

Lemma last_char_fence_close (s : string) :
  s = fence_close -> last_char s = Some "`"%char.
Proof. intros ->. reflexivity. Qed.

Lemma strip_fence_close_none (s : string) (c : ascii) :
  last_char s = Some c -> c <> "`"%char -> strip_fence_close s = s.
Proof.
  induction s as [|d s IH]; intros Hl Hc; [reflexivity|].
  change (strip_fence_close (String d s))
    with (if String.eqb (String d s) fence_close
          then EmptyString else String d (strip_fence_close s)).
  destruct (String.eqb_spec (String d s) fence_close) as [E|_].
  - apply last_char_fence_close in E. congruence.
  - f_equal. destruct s as [|e s]; [reflexivity|]. apply IH; assumption.
Qed.

Lemma starts_with_first (p s : string) (a b : ascii) :
  first_char p = Some a -> first_char s = Some b -> a <> b ->
  starts_with p s = false.
Proof.
  destruct p, s; simpl; try discriminate.
  intros [= ->] [= ->] H. destruct (Ascii.eqb_spec a b); [contradiction|reflexivity].
Qed.

Lemma json_start_not_space (c : ascii) : json_start c = true -> is_space c = false.
Proof.
  destruct c as [[] [] [] [] [] [] [] []]; vm_compute; congruence.
Qed.

Lemma json_start_not_tick (c : ascii) : json_start c = true -> "`"%char <> c.
Proof.
  intros H E. subst c. discriminate H.
Qed.

Lemma json_end_not_tick (c : ascii) : json_end c = true -> c <> "`"%char.
Proof.
  intros H E. subst c. discriminate H.
Qed.

(** The cleaning step on a fenced response: what is left is the trimmed
    content, whatever the content is. *)
Lemma cleanJsonString_fenced (ws1 content ws2 : string) :
  all_space ws1 = true -> all_space ws2 = true ->
  cleanJsonString (fenced ws1 content ws2) = trim content.
Proof.
  intros H1 H2. unfold cleanJsonString, fenced.
  assert (Ht : trim (ws1 ++ fence_open ++ content ++ fence_close ++ ws2)
               = fence_open ++ content ++ fence_close).
  { unfold trim. rewrite trimStart_skips by assumption.
    change (trimStart (fence_open ++ content ++ fence_close ++ ws2))
      with (fence_open ++ content ++ fence_close ++ ws2).
    rewrite <- (append_assoc content), <- (append_assoc fence_open).
    rewrite trimEnd_skips by assumption.
    rewrite <- append_assoc.
    apply trimEnd_keeps; [reflexivity | discriminate]. }
  rewrite Ht.
  change (strip_fence_open (fence_open ++ content ++ fence_close))
    with (trimStart (content ++ fence_close)).
  rewrite trimStart_keeps by reflexivity.
  rewrite strip_fence_close_app.
  unfold trim. now rewrite trimStart_idem.
Qed.

(** The cleaning step on content of JSON shape: only the white space
    around it goes. *)
Lemma cleanJsonString_bare (content : string) :
  json_shaped content = true -> cleanJsonString content = trim content.
Proof.
  unfold json_shaped, cleanJsonString. intros H.
  destruct (first_char (trim content)) as [a|] eqn:Ha; [|discriminate].
  destruct (last_char (trim content)) as [b|] eqn:Hb; [|discriminate].
  apply andb_true_iff in H as [Hs He].
  unfold strip_fence_open.
  rewrite (starts_with_first fence_open (trim content) "`"%char a)
    by (try reflexivity; try assumption; now apply json_start_not_tick).
  rewrite (strip_fence_close_none _ b Hb (json_end_not_tick _ He)).
  unfold trim at 1.
  rewrite (trimStart_first _ a Ha (json_start_not_space _ Hs)).
  unfold trim. apply trimEnd_idem.
Qed.

Lemma json_shaped_nonempty (content : string) :
  json_shaped content = true -> truthy (JStr content) = true.
Proof.
  destruct content; [discriminate | reflexivity].
Qed.

Lemma fenced_nonempty (ws1 content ws2 : string) :
  truthy (JStr (fenced ws1 content ws2)) = true.
Proof.
  unfold fenced. destruct ws1; reflexivity.
Qed.

(** C5.  A response made of content of JSON shape between a leading
    [```json] marker and a trailing [```] marker (white space allowed
    around the markers) is cleaned to the trimmed content, exactly as the
    bare content is; so [JSON.parse] is given the same text in both cases
    and [handleAiPrompt] behaves the same on the fenced and on the bare
    response. *)
Theorem fenced_response_parses_as_bare
    (JSON_parse : string -> ParseResult) (ws1 content ws2 : string) :
  json_shaped content = true ->
  all_space ws1 = true ->
  all_space ws2 = true ->
  cleanJsonString (fenced ws1 content ws2) = trim content
  /\ cleanJsonString content = trim content
  /\ JSON_parse (cleanJsonString (fenced ws1 content ws2))
     = JSON_parse (cleanJsonString content)
  /\ forall cast_id cast_text cast_bool req w,
       handleAiPrompt cast_id cast_text cast_bool
         (fun _ => GenText (JStr (fenced ws1 content ws2))) JSON_parse req w
       = handleAiPrompt cast_id cast_text cast_bool
           (fun _ => GenText (JStr content)) JSON_parse req w.
Proof.
  intros Hc H1 H2.
  pose proof (cleanJsonString_fenced ws1 content ws2 H1 H2) as Hf.
  pose proof (cleanJsonString_bare content Hc) as Hb.
  repeat split; try assumption.
  - now rewrite Hf, Hb.
  - intros. unfold handleAiPrompt.
    rewrite fenced_nonempty, (json_shaped_nonempty _ Hc), Hf, Hb.
    reflexivity.
Qed.

Lemma fenced_response_parses_as_bare_witness :
  cleanJsonString
    (fenced " " (newline ++ "{ [1, 2] }" ++ newline) newline) = "{ [1, 2] }"
  /\ cleanJsonString (newline ++ "{ [1, 2] }" ++ newline) = "{ [1, 2] }".
Proof.
  destruct (fenced_response_parses_as_bare (fun _ => ParseFails)
              " " (newline ++ "{ [1, 2] }" ++ newline) newline)
    as (Hf & Hb & _); try reflexivity.
  split; [exact Hf | exact Hb].
Defined.

(** ** Strings: containment *)

Lemma starts_with_spec (p s : string) :
  starts_with p s = true <-> exists post, s = p ++ post.
Proof.
  revert s. induction p as [|a p IH]; intros s; simpl.
  - split; [intros _; now exists s | reflexivity].
  - destruct s as [|b s].
    + split; [discriminate | intros [post H]; discriminate].
    + rewrite andb_true_iff, IH. split.
      * intros [Hab [post ->]]. apply Ascii.eqb_eq in Hab. subst. now exists post.
      * intros [post [= -> ->]]. split; [apply Ascii.eqb_refl | now exists post].
Qed.

Lemma includes_unfold (s sub : string) :
  includes s sub
  = starts_with sub s
    || match s with
       | EmptyString => false
       | String _ s' => includes s' sub
       end.
Proof. destruct s; reflexivity. Qed.

(** [includes] decides occurrence as a substring. *)
Lemma includes_spec (s sub : string) :
  includes s sub = true <-> exists pre post, s = pre ++ sub ++ post.
Proof.
  split.
  - induction s as [|c s IH]; rewrite includes_unfold, orb_true_iff.
    + intros [H|H]; [|discriminate].
      apply starts_with_spec in H as [post E]. now exists "", post.
    + intros [H|H].
      * apply starts_with_spec in H as [post E]. now exists "", post.
      * destruct (IH H) as (pre & post & ->). now exists (String c pre), post.
  - intros (pre & post & ->). induction pre as [|c pre IH].
    + rewrite includes_unfold. apply orb_true_iff. left.
      apply starts_with_spec. now exists post.
    + change (String c pre ++ sub ++ post) with (String c (pre ++ sub ++ post)).
      rewrite includes_unfold. apply orb_true_iff. right. exact IH.
Qed.

Lemma includes_empty (s : string) : includes s "" = true.
Proof. rewrite includes_unfold. reflexivity. Qed.

Lemma includes_contains_ci (fragment : string) (t : Todo) :
  includes (toLowerCase (todo_task t)) (toLowerCase fragment) = true
  <-> contains_ci (todo_task t) fragment.
Proof. apply includes_spec. Qed.

(** ** Lists: the first match *)

Lemma find_first {A : Type} (f : A -> bool) (before after : list A) (x : A) :
  (forall y, In y before -> f y = false) -> f x = true ->
  find f (before ++ x :: after) = Some x.
Proof.
  intros Hb Hx. induction before as [|y before IH]; simpl.
  - now rewrite Hx.
  - rewrite (Hb y) by now left. apply IH. intros z Hz. apply Hb. now right.
Qed.

Lemma find_nothing {A : Type} (f : A -> bool) (l : list A) :
  (forall y, In y l -> f y = false) -> find f l = None.
Proof.
  intros H. induction l as [|y l IH]; simpl; [reflexivity|].
  rewrite (H y) by now left. apply IH. intros z Hz. apply H. now right.
Qed.

(** ** The two lookups *)

Lemma GetTodos_rows (w : World) :
  outage (db w) = None ->
  GetTodos false w = (Return (Rows (rows (db w))), record_call CallSelect w).
Proof.
  intros H. unfold GetTodos, supabase_select. now rewrite H.
Qed.

Lemma position_index_spec (p n : Z) : position_index p n = spec_index p n.
Proof.
  unfold position_index, spec_index.
  destruct (Z.gtb_spec p 0), (Z_gt_dec p 0); try reflexivity; lia.
Qed.

Lemma findTodoIdByPosition_found (w : World) (p : Z) :
  outage (db w) = None ->
  in_range (spec_index p (Z.of_nat (List.length (rows (db w)))))
           (Z.of_nat (List.length (rows (db w)))) ->
  exists t,
    nth_error (rows (db w))
      (Z.to_nat (spec_index p (Z.of_nat (List.length (rows (db w)))))) = Some t
    /\ findTodoIdByPosition p w
       = (Return (JNum (todo_id t)), record_call CallSelect w).
Proof.
  intros Hout Hr. unfold findTodoIdByPosition.
  rewrite (GetTodos_rows w Hout), position_index_spec.
  set (todos := rows (db w)) in *.
  set (n := Z.of_nat (List.length todos)) in *.
  set (i := spec_index p n) in *.
  unfold in_range in Hr.
  destruct (nth_error todos (Z.to_nat i)) as [t|] eqn:E.
  - exists t. split; [reflexivity|].
    destruct (Z.eqb_spec n 0); [lia|].
    destruct (Z.ltb_spec i 0); [lia|].
    destruct (Z.geb_spec i n); [lia|]. reflexivity.
  - apply nth_error_None in E. unfold n in Hr. lia.
Qed.

Lemma findTodoIdByPosition_missing (w : World) (p : Z) :
  outage (db w) = None ->
  ~ in_range (spec_index p (Z.of_nat (List.length (rows (db w)))))
             (Z.of_nat (List.length (rows (db w)))) ->
  findTodoIdByPosition p w = (Return JNull, record_call CallSelect w).
Proof.
  intros Hout Hr. unfold findTodoIdByPosition.
  rewrite (GetTodos_rows w Hout), position_index_spec.
  set (n := Z.of_nat (List.length (rows (db w)))) in *.
  set (i := spec_index p n) in *.
  unfold in_range in Hr.
  destruct (Z.eqb_spec n 0); [reflexivity|].
  destruct (Z.ltb_spec i 0); [reflexivity|].
  destruct (Z.geb_spec i n); [reflexivity|]. lia.
Qed.

Lemma findTodoIdByPartialTaskName_find (w : World) (fragment : string) :
  outage (db w) = None ->
  findTodoIdByPartialTaskName fragment w
  = (Return
       match find (fun t => includes (toLowerCase (todo_task t))
                                     (toLowerCase fragment))
                  (rows (db w)) with
       | Some todo => JNum (todo_id todo)
       | None => JNull
       end,
     record_call CallSelect w).
Proof.
  intros Hout. unfold findTodoIdByPartialTaskName.
  rewrite (GetTodos_rows w Hout).
  destruct (rows (db w)) as [|t l]; [reflexivity|].
  change (Z.of_nat (List.length (t :: l)) =? 0) with false.
  cbv iota. now destruct (find _ (t :: l)).
Qed.

Lemma findTodoIdByPartialTaskName_first
    (w : World) (fragment : string) (before after : list Todo) (t : Todo) :
  outage (db w) = None ->
  rows (db w) = (before ++ t :: after)%list ->
  contains_ci (todo_task t) fragment ->
  (forall u, In u before -> ~ contains_ci (todo_task u) fragment) ->
  findTodoIdByPartialTaskName fragment w
  = (Return (JNum (todo_id t)), record_call CallSelect w).
Proof.
  intros Hout Hrows Ht Hb.
  rewrite (findTodoIdByPartialTaskName_find w fragment Hout), Hrows.
  rewrite find_first; [reflexivity | | now apply includes_contains_ci].
  intros u Hu. apply not_true_is_false. intros H.
  apply (Hb u Hu). now apply includes_contains_ci.
Qed.

Lemma findTodoIdByPartialTaskName_none (w : World) (fragment : string) :
  outage (db w) = None ->
  (forall u, In u (rows (db w)) -> ~ contains_ci (todo_task u) fragment) ->
  findTodoIdByPartialTaskName fragment w
  = (Return JNull, record_call CallSelect w).
Proof.
  intros Hout Hb.
  rewrite (findTodoIdByPartialTaskName_find w fragment Hout).
  rewrite find_nothing; [reflexivity|].
  intros u Hu. apply not_true_is_false. intros H.
  apply (Hb u Hu). now apply includes_contains_ci.
Qed.

(** ** The resolver's branches *)

Section Branches.

Variable cast_id : JsValue -> option Z.
Variable cast_bool : JsValue -> option bool.

(** With no numeric [id], a numeric [position] decides. *)
Lemma handleUpdateIntent_position (parsed : Parsed) (req : Request) (w : World) (p : Z) :
  typeof_number (parsed_id parsed) = false ->
  parsed_position parsed = JNum p ->
  handleUpdateIntent cast_id cast_bool parsed req w
  = match findTodoIdByPosition p w with
    | (Throw e, w1) => (Throw e, w1)
    | (Return id, w1) =>
        if negb (truthy id)
        then (json 404 (ErrorBody (NoTaskAtPosition (JNum p))), w1)
        else UpdateTodo cast_id cast_bool (update_request id parsed req) w1
    end.
Proof.
  intros Hid Hp. unfold handleUpdateIntent. rewrite Hp.
  destruct (parsed_id parsed); try discriminate; reflexivity.
Qed.

Lemma handleDeleteIntent_position (parsed : Parsed) (req : Request) (w : World) (p : Z) :
  typeof_number (parsed_id parsed) = false ->
  parsed_position parsed = JNum p ->
  handleDeleteIntent cast_id parsed req w
  = match findTodoIdByPosition p w with
    | (Throw e, w1) => (Throw e, w1)
    | (Return id, w1) =>
        if negb (truthy id)
        then (json 404 (ErrorBody (NoTaskAtPosition (JNum p))), w1)
        else DeleteTodo cast_id (set_params_id id req) w1
    end.
Proof.
  intros Hid Hp. unfold handleDeleteIntent. rewrite Hp.
  destruct (parsed_id parsed); try discriminate; reflexivity.
Qed.

(** With no numeric [id] and no numeric [position], a [task] string
    decides. *)
Lemma handleUpdateIntent_task (parsed : Parsed) (req : Request) (w : World) (s : string) :
  typeof_number (parsed_id parsed) = false ->
  typeof_number (parsed_position parsed) = false ->
  parsed_task parsed = JStr s ->
  handleUpdateIntent cast_id cast_bool parsed req w
  = match findTodoIdByPartialTaskName s w with
    | (Throw e, w1) => (Throw e, w1)
    | (Return id, w1) =>
        if negb (truthy id)
        then (json 404 (ErrorBody (NoTaskMatching (JStr s))), w1)
        else UpdateTodo cast_id cast_bool (update_request id parsed req) w1
    end.
Proof.
  intros Hid Hp Ht. unfold handleUpdateIntent. rewrite Ht.
  destruct (parsed_id parsed); try discriminate;
    destruct (parsed_position parsed); try discriminate; reflexivity.
Qed.

Lemma handleDeleteIntent_task (parsed : Parsed) (req : Request) (w : World) (s : string) :
  typeof_number (parsed_id parsed) = false ->
  typeof_number (parsed_position parsed) = false ->
  parsed_task parsed = JStr s ->
  handleDeleteIntent cast_id parsed req w
  = match findTodoIdByPartialTaskName s w with
    | (Throw e, w1) => (Throw e, w1)
    | (Return id, w1) =>
        if negb (truthy id)
        then (json 404 (ErrorBody (NoTaskMatching (JStr s))), w1)
        else DeleteTodo cast_id (set_params_id id req) w1
    end.
Proof.
  intros Hid Hp Ht. unfold handleDeleteIntent. rewrite Ht.
  destruct (parsed_id parsed); try discriminate;
    destruct (parsed_position parsed); try discriminate; reflexivity.
Qed.

End Branches.

(** ** Target resolution *)

(** C2.  On a list of [n] records (the store answering), the index for
    position [p] is [p - 1] when [p > 0] and [n + p] otherwise; when it
    lies in [0, n) the lookup returns the id of the record at that index,
    and otherwise it returns [null], which both intent handlers answer
    with 404.  Position 1 is the first record, position -1 the last, and
    on an empty list every position is missing. *)
Theorem positional_resolution
    (cast_id : JsValue -> option Z) (cast_bool : JsValue -> option bool)
    (w : World) (p : Z) :
  outage (db w) = None ->
  let todos := rows (db w) in
  let n := Z.of_nat (List.length todos) in
  let w1 := record_call CallSelect w in
  (p > 0 -> position_index p n = p - 1)
  /\ (p <= 0 -> position_index p n = n + p)
  /\ (in_range (position_index p n) n ->
      exists t,
        nth_error todos (Z.to_nat (position_index p n)) = Some t
        /\ findTodoIdByPosition p w = (Return (JNum (todo_id t)), w1))
  /\ (~ in_range (position_index p n) n ->
      findTodoIdByPosition p w = (Return JNull, w1)
      /\ forall parsed req,
           typeof_number (parsed_id parsed) = false ->
           parsed_position parsed = JNum p ->
           handleUpdateIntent cast_id cast_bool parsed req w
           = (json 404 (ErrorBody (NoTaskAtPosition (JNum p))), w1)
           /\ handleDeleteIntent cast_id parsed req w
              = (json 404 (ErrorBody (NoTaskAtPosition (JNum p))), w1))
  /\ (forall t rest, todos = t :: rest ->
        findTodoIdByPosition 1 w = (Return (JNum (todo_id t)), w1))
  /\ (forall front t, todos = (front ++ [t])%list ->
        findTodoIdByPosition (-1) w = (Return (JNum (todo_id t)), w1))
  /\ (todos = [] -> findTodoIdByPosition p w = (Return JNull, w1)).
Proof.
  intros Hout todos n w1.
  split; [|split; [|split; [|split; [|split; [|split]]]]].
  - intros Hp. unfold position_index. destruct (Z.gtb_spec p 0); [reflexivity | lia].
  - intros Hp. unfold position_index. destruct (Z.gtb_spec p 0); [lia | reflexivity].
  - rewrite position_index_spec. intros Hr.
    exact (findTodoIdByPosition_found w p Hout Hr).
  - rewrite position_index_spec. intros Hr.
    pose proof (findTodoIdByPosition_missing w p Hout Hr) as Hf.
    split; [exact Hf|]. intros parsed req Hid Hp. split.
    + rewrite (handleUpdateIntent_position _ _ _ _ _ p Hid Hp), Hf. reflexivity.
    + rewrite (handleDeleteIntent_position _ _ _ _ p Hid Hp), Hf. reflexivity.
  - intros t rest E.
    destruct (findTodoIdByPosition_found w 1 Hout) as (t' & Hn & Hf).
    + fold todos. rewrite E. unfold in_range, spec_index. simpl List.length.
      destruct (Z_gt_dec 1 0); lia.
    + fold todos in Hn. rewrite E in Hn. unfold spec_index in Hn.
      destruct (Z_gt_dec 1 0); [|lia]. simpl in Hn. now inversion Hn; subst.
  - intros front t E.
    destruct (findTodoIdByPosition_found w (-1) Hout) as (t' & Hn & Hf).
    + fold todos. rewrite E. unfold in_range, spec_index.
      rewrite length_app. simpl List.length.
      destruct (Z_gt_dec (-1) 0); lia.
    + fold todos in Hn. rewrite E in Hn. unfold spec_index in Hn.
      destruct (Z_gt_dec (-1) 0); [lia|].
      rewrite length_app in Hn. simpl List.length in Hn.
      replace (Z.to_nat (Z.of_nat (List.length front + 1) + -1))
        with (List.length front) in Hn by lia.
      rewrite nth_error_app2 in Hn by lia.
      rewrite Nat.sub_diag in Hn. simpl in Hn. now inversion Hn; subst.
  - intros E. apply (findTodoIdByPosition_missing w p Hout).
    fold todos. rewrite E. unfold in_range. simpl. lia.
Qed.

Lemma positional_resolution_witness :
  findTodoIdByPosition (-1) two_todos
  = (Return (JNum 2), record_call CallSelect two_todos)
  /\ findTodoIdByPosition 1 two_todos
     = (Return (JNum 1), record_call CallSelect two_todos)
  /\ findTodoIdByPosition 1 empty_table
     = (Return JNull, record_call CallSelect empty_table).
Proof.
  destruct (positional_resolution strict_id strict_bool two_todos 5 eq_refl)
    as (_ & _ & _ & _ & Hfirst & Hlast & _).
  destruct (positional_resolution strict_id strict_bool empty_table 1 eq_refl)
    as (_ & _ & _ & _ & _ & _ & Hempty).
  split; [|split].
  - exact (Hlast [buy_milk] read_book eq_refl).
  - exact (Hfirst buy_milk [read_book] eq_refl).
  - exact (Hempty eq_refl).
Defined.

(** C3.  On any list of records (the store answering), the fuzzy lookup
    returns the id of the first record, in the order the store returns
    them, whose task contains the fragment case-insensitively; when no
    task contains it the lookup returns [null], which both intent
    handlers answer with 404. *)
Theorem fuzzy_resolution_first_match
    (cast_id : JsValue -> option Z) (cast_bool : JsValue -> option bool)
    (w : World) (fragment : string) :
  outage (db w) = None ->
  let w1 := record_call CallSelect w in
  (forall before t after,
      rows (db w) = (before ++ t :: after)%list ->
      contains_ci (todo_task t) fragment ->
      (forall u, In u before -> ~ contains_ci (todo_task u) fragment) ->
      findTodoIdByPartialTaskName fragment w = (Return (JNum (todo_id t)), w1))
  /\ ((forall u, In u (rows (db w)) -> ~ contains_ci (todo_task u) fragment) ->
      findTodoIdByPartialTaskName fragment w = (Return JNull, w1)
      /\ forall parsed req,
           typeof_number (parsed_id parsed) = false ->
           typeof_number (parsed_position parsed) = false ->
           parsed_task parsed = JStr fragment ->
           handleUpdateIntent cast_id cast_bool parsed req w
           = (json 404 (ErrorBody (NoTaskMatching (JStr fragment))), w1)
           /\ handleDeleteIntent cast_id parsed req w
              = (json 404 (ErrorBody (NoTaskMatching (JStr fragment))), w1)).
Proof.
  intros Hout w1. split.
  - intros before t after Hrows Ht Hb.
    exact (findTodoIdByPartialTaskName_first w fragment before after t
             Hout Hrows Ht Hb).
  - intros Hnone.
    pose proof (findTodoIdByPartialTaskName_none w fragment Hout Hnone) as Hf.
    split; [exact Hf|]. intros parsed req Hid Hp Ht. split.
    + rewrite (handleUpdateIntent_task _ _ _ _ _ fragment Hid Hp Ht), Hf.
      reflexivity.
    + rewrite (handleDeleteIntent_task _ _ _ _ fragment Hid Hp Ht), Hf.
      reflexivity.
Qed.

Lemma fuzzy_resolution_first_match_witness :
  findTodoIdByPartialTaskName "BOOK" two_todos
  = (Return (JNum 2), record_call CallSelect two_todos).
Proof.
  destruct (fuzzy_resolution_first_match strict_id strict_bool two_todos "BOOK"
              eq_refl) as [Hfirst _].
  apply (Hfirst [buy_milk] read_book []).
  - reflexivity.
  - exists "read ", "". reflexivity.
  - intros u [<-|[]] H. apply includes_contains_ci in H. discriminate H.
Defined.

(** The empty fragment away from id 0.  On a non-empty list (the store
    answering) the fuzzy lookup with the empty fragment returns the id of
    the first record, since every task contains the empty string; when
    that id is not 0, an update or delete intent with [task] the empty
    string and no numeric [id] or [position] goes on to update or delete
    that record. *)
Theorem empty_fragment_targets_first
    (cast_id : JsValue -> option Z) (cast_bool : JsValue -> option bool)
    (w : World) (t : Todo) (rest : list Todo) :
  outage (db w) = None ->
  rows (db w) = t :: rest ->
  let w1 := record_call CallSelect w in
  findTodoIdByPartialTaskName "" w = (Return (JNum (todo_id t)), w1)
  /\ (todo_id t <> 0 ->
      forall parsed req,
        typeof_number (parsed_id parsed) = false ->
        typeof_number (parsed_position parsed) = false ->
        parsed_task parsed = JStr "" ->
        handleUpdateIntent cast_id cast_bool parsed req w
        = UpdateTodo cast_id cast_bool
            (update_request (JNum (todo_id t)) parsed req) w1
        /\ handleDeleteIntent cast_id parsed req w
           = DeleteTodo cast_id (set_params_id (JNum (todo_id t)) req) w1).
Proof.
  intros Hout Hrows w1.
  assert (Hf : findTodoIdByPartialTaskName "" w = (Return (JNum (todo_id t)), w1)).
  { rewrite (findTodoIdByPartialTaskName_find w "" Hout), Hrows.
    simpl find. now rewrite includes_empty. }
  split; [exact Hf|].
  intros Hid parsed req Hpid Hpos Htask.
  assert (Ht : negb (truthy (JNum (todo_id t))) = false).
  { simpl. destruct (Z.eqb_spec (todo_id t) 0); [contradiction | reflexivity]. }
  split.
  - rewrite (handleUpdateIntent_task _ _ _ _ _ "" Hpid Hpos Htask), Hf, Ht.
    reflexivity.
  - rewrite (handleDeleteIntent_task _ _ _ _ "" Hpid Hpos Htask), Hf, Ht.
    reflexivity.
Qed.

Lemma empty_fragment_targets_first_witness :
  findTodoIdByPartialTaskName "" two_todos
  = (Return (JNum 1), record_call CallSelect two_todos)
  /\ fst (handleDeleteIntent strict_id
            (delete_intent JUndefined JUndefined (JStr "")) empty_request two_todos)
     = json 200 (TodosBody [buy_milk]).
Proof.
  destruct (empty_fragment_targets_first strict_id strict_bool two_todos
              buy_milk [read_book] eq_refl eq_refl) as [Hf Hh].
  split; [exact Hf|].
  assert (Hne : todo_id buy_milk <> 0) by (simpl; lia).
  destruct (Hh Hne (delete_intent JUndefined JUndefined (JStr "")) empty_request
              eq_refl eq_refl eq_refl) as [_ Hd].
  rewrite Hd. reflexivity.
Defined.

(** C9.  The empty fragment on a table whose first record has id 0.
    The fuzzy lookup does return the first record's id, 0; but both
    intent handlers test that id with [!id], take it for "nothing
    found", and answer 404 without touching the table, instead of
    updating or deleting the first record.  The same record named by its
    id is deleted: a numeric id is not put to that test. *)
Theorem empty_fragment_rejected_at_id_zero
    (cast_id : JsValue -> option Z) (cast_bool : JsValue -> option bool) :
  findTodoIdByPartialTaskName "" zero_first
  = (Return (JNum 0), record_call CallSelect zero_first)
  /\ handleUpdateIntent cast_id cast_bool
       (update_intent JUndefined JUndefined (JStr "") JUndefined (JBool true))
       empty_request zero_first
     = (json 404 (ErrorBody (NoTaskMatching (JStr ""))),
        record_call CallSelect zero_first)
  /\ handleDeleteIntent cast_id
       (delete_intent JUndefined JUndefined (JStr "")) empty_request zero_first
     = (json 404 (ErrorBody (NoTaskMatching (JStr ""))),
        record_call CallSelect zero_first)
  /\ fst (handleDeleteIntent cast_id
            (delete_intent (JNum 0) JUndefined JUndefined)
            empty_request zero_first)
     = json 200 (TodosBody [mkTodo 0 "Water plants" false]).
Proof.
  repeat split; reflexivity.
Qed.

(** C4.  Both intent handlers resolve the target by one reference, in the
    order id, position, task.  A numeric [id] is used as it is, whatever
    [position] and [task] are; failing that a numeric [position] is
    looked up, whatever [task] is; failing that a [task] string is looked
    up; and when none of the three is there (no numeric id, no numeric
    position, no task string) the request is answered with 400 and
    nothing is called. *)
Theorem resolution_priority
    (cast_id : JsValue -> option Z) (cast_bool : JsValue -> option bool)
    (parsed : Parsed) (req : Request) (w : World) :
  (forall n, parsed_id parsed = JNum n ->
     handleUpdateIntent cast_id cast_bool parsed req w
     = UpdateTodo cast_id cast_bool (update_request (JNum n) parsed req) w
     /\ handleDeleteIntent cast_id parsed req w
        = DeleteTodo cast_id (set_params_id (JNum n) req) w
     /\ forall position' task',
          handleUpdateIntent cast_id cast_bool
            (with_position position' (with_task task' parsed)) req w
          = handleUpdateIntent cast_id cast_bool parsed req w
          /\ handleDeleteIntent cast_id
               (with_position position' (with_task task' parsed)) req w
             = handleDeleteIntent cast_id parsed req w)
  /\ (typeof_number (parsed_id parsed) = false ->
      forall p, parsed_position parsed = JNum p ->
        handleUpdateIntent cast_id cast_bool parsed req w
        = match findTodoIdByPosition p w with
          | (Throw e, w1) => (Throw e, w1)
          | (Return id, w1) =>
              if negb (truthy id)
              then (json 404 (ErrorBody (NoTaskAtPosition (JNum p))), w1)
              else UpdateTodo cast_id cast_bool (update_request id parsed req) w1
          end
        /\ handleDeleteIntent cast_id parsed req w
           = match findTodoIdByPosition p w with
             | (Throw e, w1) => (Throw e, w1)
             | (Return id, w1) =>
                 if negb (truthy id)
                 then (json 404 (ErrorBody (NoTaskAtPosition (JNum p))), w1)
                 else DeleteTodo cast_id (set_params_id id req) w1
             end
        /\ forall task',
             handleUpdateIntent cast_id cast_bool (with_task task' parsed) req w
             = handleUpdateIntent cast_id cast_bool parsed req w
             /\ handleDeleteIntent cast_id (with_task task' parsed) req w
                = handleDeleteIntent cast_id parsed req w)
  /\ (typeof_number (parsed_id parsed) = false ->
      typeof_number (parsed_position parsed) = false ->
      forall s, parsed_task parsed = JStr s ->
        handleUpdateIntent cast_id cast_bool parsed req w
        = match findTodoIdByPartialTaskName s w with
          | (Throw e, w1) => (Throw e, w1)
          | (Return id, w1) =>
              if negb (truthy id)
              then (json 404 (ErrorBody (NoTaskMatching (JStr s))), w1)
              else UpdateTodo cast_id cast_bool (update_request id parsed req) w1
          end
        /\ handleDeleteIntent cast_id parsed req w
           = match findTodoIdByPartialTaskName s w with
             | (Throw e, w1) => (Throw e, w1)
             | (Return id, w1) =>
                 if negb (truthy id)
                 then (json 404 (ErrorBody (NoTaskMatching (JStr s))), w1)
                 else DeleteTodo cast_id (set_params_id id req) w1
             end)
  /\ (typeof_number (parsed_id parsed) = false ->
      typeof_number (parsed_position parsed) = false ->
      typeof_string (parsed_task parsed) = false ->
      handleUpdateIntent cast_id cast_bool parsed req w
      = (json 400 (ErrorBody
           (Message "Need either id, position, or task text for update")), w)
      /\ handleDeleteIntent cast_id parsed req w
         = (json 400 (ErrorBody
              (Message "Need either id, position, or task text for delete")), w)).
Proof.
  split; [|split; [|split]].
  - intros n Hn. unfold handleUpdateIntent, handleDeleteIntent.
    destruct parsed as [i pid pos tk nt dn]. simpl in Hn. subst pid.
    repeat split; reflexivity.
  - intros Hid p Hp. split; [|split].
    + exact (handleUpdateIntent_position _ _ _ _ _ p Hid Hp).
    + exact (handleDeleteIntent_position _ _ _ _ p Hid Hp).
    + intros task'. destruct parsed as [i pid pos tk nt dn].
      simpl in Hid, Hp. subst pos.
      split; destruct pid; try discriminate; reflexivity.
  - intros Hid Hpos s Hs. split.
    + exact (handleUpdateIntent_task _ _ _ _ _ s Hid Hpos Hs).
    + exact (handleDeleteIntent_task _ _ _ _ s Hid Hpos Hs).
  - intros Hid Hpos Htask. unfold handleUpdateIntent, handleDeleteIntent.
    destruct (parsed_id parsed); try discriminate;
      destruct (parsed_position parsed); try discriminate;
      destruct (parsed_task parsed); try discriminate; split; reflexivity.
Qed.

Lemma resolution_priority_witness :
  handleDeleteIntent strict_id
    (delete_intent JUndefined JUndefined JUndefined) empty_request two_todos
  = (json 400 (ErrorBody
       (Message "Need either id, position, or task text for delete")), two_todos)
  /\ handleDeleteIntent strict_id
       (delete_intent (JNum 2) (JNum 1) (JStr "milk")) empty_request two_todos
     = DeleteTodo strict_id (set_params_id (JNum 2) empty_request) two_todos.
Proof.
  split.
  - destruct (resolution_priority strict_id strict_bool
                (delete_intent JUndefined JUndefined JUndefined)
                empty_request two_todos) as (_ & _ & _ & Hnone).
    exact (proj2 (Hnone eq_refl eq_refl eq_refl)).
  - destruct (resolution_priority strict_id strict_bool
                (delete_intent (JNum 2) (JNum 1) (JStr "milk"))
                empty_request two_todos) as (Hid & _).
    exact (proj1 (proj2 (Hid 2 eq_refl))).
Defined.

(** ** The CRUD handlers *)

Lemma filter_all {A : Type} (f : A -> bool) (l : list A) :
  (forall x, In x l -> f x = true) -> filter f l = l.
Proof.
  intros H. induction l as [|x l IH]; simpl; [reflexivity|].
  rewrite (H x) by now left. f_equal. apply IH. intros y Hy. apply H. now right.
Qed.

Lemma filter_nothing {A : Type} (f : A -> bool) (l : list A) :
  (forall x, In x l -> f x = false) -> filter f l = [].
Proof.
  intros H. induction l as [|x l IH]; simpl; [reflexivity|].
  rewrite (H x) by now left. apply IH. intros y Hy. apply H. now right.
Qed.

Lemma with_rows_same (c : Call) (w : World) :
  with_rows (rows (db w)) (next_id (db w)) (record_call c w) = record_call c w.
Proof.
  destruct w as [[l n o] cs]. reflexivity.
Qed.

Lemma has_id_false (i : Z) (t : Todo) : todo_id t <> i -> has_id i t = false.
Proof. intros H. unfold has_id. now apply Z.eqb_neq. Qed.

Lemma others_patched (i : Z) (b : bool) (l : list Todo) :
  others i (map (patched i b) l) = others i l.
Proof.
  unfold others. induction l as [|t l IH]; [reflexivity|].
  assert (H : has_id i (patched i b t) = has_id i t)
    by (unfold patched; now destruct (has_id i t) eqn:E).
  cbn [map filter]. rewrite H, IH.
  destruct (has_id i t) eqn:E; cbn [negb]; [reflexivity|].
  unfold patched. now rewrite E.
Qed.

Lemma ids_patched (i : Z) (b : bool) (l : list Todo) :
  map todo_id (map (patched i b) l) = map todo_id l.
Proof.
  rewrite map_map. apply map_ext. intros t. unfold patched.
  now destruct (has_id i t).
Qed.

Lemma tasks_patched (i : Z) (b : bool) (l : list Todo) :
  map todo_task (map (patched i b) l) = map todo_task l.
Proof.
  rewrite map_map. apply map_ext. intros t. unfold patched.
  now destruct (has_id i t).
Qed.

Lemma others_idem (i : Z) (l : list Todo) : others i (others i l) = others i l.
Proof.
  unfold others. apply filter_all. intros t Ht.
  now apply filter_In in Ht.
Qed.

(** The table after [UpdateTodo]: as it was, or with the rows of one id
    patched. *)
Lemma UpdateTodo_rows
    (cast_id : JsValue -> option Z) (cast_bool : JsValue -> option bool)
    (req : Request) (w : World) (i : Z) :
  column_id cast_id (params_id req) = Some i ->
  rows (db (snd (UpdateTodo cast_id cast_bool req w))) = rows (db w)
  \/ exists b,
       rows (db (snd (UpdateTodo cast_id cast_bool req w)))
       = map (patched i b) (rows (db w)).
Proof.
  intros Hi. unfold UpdateTodo, supabase_update. rewrite Hi.
  destruct (outage (db w)); [now left|].
  destruct (body_done req) eqn:Ed; try (now left);
    destruct (column_bool cast_bool _); try (now left);
    right; eexists; reflexivity.
Qed.

(** The table after [DeleteTodo]: as it was, or without the rows of one
    id. *)
Lemma DeleteTodo_rows
    (cast_id : JsValue -> option Z) (req : Request) (w : World) (i : Z) :
  column_id cast_id (params_id req) = Some i ->
  rows (db (snd (DeleteTodo cast_id req w))) = rows (db w)
  \/ rows (db (snd (DeleteTodo cast_id req w))) = others i (rows (db w)).
Proof.
  intros Hi. unfold DeleteTodo, supabase_delete. rewrite Hi.
  destruct (outage (db w)); [now left | now right].
Qed.

(** C6.  [CreateTodo] answers 400 when the task is empty (or absent, or
    otherwise falsy), whatever the rest of the request is, and leaves the
    world as it was: no insert is attempted.  When the task is not empty
    and the insert succeeds, it answers 201 with the row the insert
    created, which carries the id the store assigned and is now the last
    row of the table. *)
Theorem create_validates_task
    (cast_text : JsValue -> option string) (req : Request) (w : World) :
  (truthy (body_task req) = false ->
     CreateTodo cast_text req w
     = (json 400 (ErrorBody (Message "Title and description are required")), w))
  /\ (truthy (body_task req) = true ->
      forall data w',
        supabase_insert cast_text (body_task req) w = (QData data, w') ->
        exists r,
          CreateTodo cast_text req w = (json 201 (TodoBody r), w')
          /\ todo_id r = next_id (db w)
          /\ todo_done r = false
          /\ rows (db w') = (rows (db w) ++ [r])%list)
  /\ (forall s, body_task req = JStr s -> s <> "" -> outage (db w) = None ->
      CreateTodo cast_text req w
      = (json 201 (TodoBody (mkTodo (next_id (db w)) s false)),
         with_rows (rows (db w) ++ [mkTodo (next_id (db w)) s false])
                   (next_id (db w) + 1) (record_call CallInsert w))).
Proof.
  split; [|split].
  - intros H. unfold CreateTodo. now rewrite H.
  - intros H data w' Hins. unfold CreateTodo. rewrite H, Hins. simpl negb.
    unfold supabase_insert in Hins.
    destruct (outage (db w)); [discriminate|].
    destruct (column_text cast_text (body_task req)) as [s|]; [|discriminate].
    injection Hins as <- <-. eexists. repeat split.
  - intros s Hs Hne Hout. unfold CreateTodo, supabase_insert.
    rewrite Hs, Hout. simpl.
    destruct (String.eqb_spec s ""); [contradiction | reflexivity].
Qed.

Lemma create_validates_task_witness :
  CreateTodo strict_text
    (mkRequest (JNum 7) (JStr "x") (JStr "") (JBool true)) two_todos
  = (json 400 (ErrorBody (Message "Title and description are required")),
     two_todos)
  /\ fst (CreateTodo strict_text
            (mkRequest JUndefined JUndefined (JStr "Walk dog") JUndefined)
            two_todos)
     = json 201 (TodoBody (mkTodo 3 "Walk dog" false)).
Proof.
  split.
  - exact (proj1 (create_validates_task strict_text
                    (mkRequest (JNum 7) (JStr "x") (JStr "") (JBool true))
                    two_todos) eq_refl).
  - destruct (create_validates_task strict_text
                (mkRequest JUndefined JUndefined (JStr "Walk dog") JUndefined)
                two_todos) as (_ & _ & H).
    rewrite (H "Walk dog" eq_refl); [reflexivity | discriminate | reflexivity].
Defined.

(** C7.  Deleting an id that no stored record has answers 200 with an
    empty list, and the table is as it was (the call is made, nothing is
    removed).  [DeleteTodo] never rejects; it answers 200 with the rows
    it removed, or 500 with the store's error, and the latter only when
    the store query failed. *)
Theorem delete_missing_is_noop
    (cast_id : JsValue -> option Z) (req : Request) (w : World) :
  (forall i,
     column_id cast_id (params_id req) = Some i ->
     outage (db w) = None ->
     (forall t, In t (rows (db w)) -> todo_id t <> i) ->
     DeleteTodo cast_id req w
     = (json 200 (TodosBody []), record_call CallDelete w)
     /\ db (snd (DeleteTodo cast_id req w)) = db w)
  /\ ((exists data,
         fst (DeleteTodo cast_id req w) = json 200 (TodosBody data))
      \/ (exists m,
            fst (DeleteTodo cast_id req w) = json 500 (ErrorBody (Message m))
            /\ fst (supabase_delete cast_id (params_id req) w) = QError m
            /\ db (snd (DeleteTodo cast_id req w)) = db w)).
Proof.
  split.
  - intros i Hi Hout Hmiss.
    assert (E : DeleteTodo cast_id req w
                = (json 200 (TodosBody []), record_call CallDelete w)).
    { unfold DeleteTodo, supabase_delete. rewrite Hi, Hout.
      rewrite (filter_nothing (has_id i)),
              (filter_all (fun t => negb (has_id i t))).
      - now rewrite with_rows_same.
      - intros t Ht. now rewrite (has_id_false i t (Hmiss t Ht)).
      - intros t Ht. exact (has_id_false i t (Hmiss t Ht)). }
    split; [exact E | now rewrite E].
  - unfold DeleteTodo, supabase_delete.
    destruct (outage (db w)) as [m|].
    + right. exists m. repeat split.
    + destruct (column_id cast_id (params_id req)) as [i|].
      * left. eexists. reflexivity.
      * right. exists cast_error. repeat split.
Qed.

Lemma delete_missing_is_noop_witness :
  DeleteTodo strict_id (set_params_id (JNum 9) empty_request) two_todos
  = (json 200 (TodosBody []), record_call CallDelete two_todos).
Proof.
  destruct (delete_missing_is_noop strict_id
              (set_params_id (JNum 9) empty_request) two_todos) as [H _].
  refine (proj1 (H 9 eq_refl eq_refl _)).
  intros t [<-|[<-|[]]]; simpl; lia.
Defined.

Lemma patched_id (i : Z) (b : bool) (t : Todo) :
  todo_id (patched i b t) = todo_id t.
Proof. unfold patched. now destruct (has_id i t). Qed.

Lemma patched_task (i : Z) (b : bool) (t : Todo) :
  todo_task (patched i b t) = todo_task t.
Proof. unfold patched. now destruct (has_id i t). Qed.

Lemma UpdateTodo_patches
    (cast_id : JsValue -> option Z) (cast_bool : JsValue -> option bool)
    (req : Request) (w : World) (i : Z) (b : bool) :
  column_id cast_id (params_id req) = Some i ->
  outage (db w) = None ->
  body_done req = JBool b ->
  rows (db (snd (UpdateTodo cast_id cast_bool req w)))
  = map (patched i b) (rows (db w)).
Proof.
  intros Hi Hout Hdone. unfold UpdateTodo, supabase_update.
  now rewrite Hi, Hout, Hdone.
Qed.

Lemma DeleteTodo_removes
    (cast_id : JsValue -> option Z) (req : Request) (w : World) (i : Z) :
  column_id cast_id (params_id req) = Some i ->
  outage (db w) = None ->
  rows (db (snd (DeleteTodo cast_id req w))) = others i (rows (db w)).
Proof.
  intros Hi Hout. unfold DeleteTodo, supabase_delete.
  now rewrite Hi, Hout.
Qed.

Lemma patched_target (i : Z) (b : bool) (t : Todo) :
  todo_id t = i -> patched i b t = set_done b t.
Proof.
  intros H. unfold patched, has_id. rewrite H. now rewrite Z.eqb_refl.
Qed.

(** C8.  An update or a delete aimed at id [i] leaves every record with
    another id as it was: up to the order of the rows, the records with
    another id are the same before and after.  The update neither adds
    nor removes a record, changes nothing but the [done] flag of the
    records of id [i] and, when it goes through with a boolean, gives
    them that flag; the delete adds nothing and, when it goes through,
    leaves no record of id [i].  On the table of the two records
    "Buy milk" (1) and "Read book" (2), the intent update with id 2 and
    done true answers with record 2 done, and the table then holds
    record 1 as it was and record 2 done. *)
Theorem update_delete_touch_only_target
    (cast_id : JsValue -> option Z) (cast_bool : JsValue -> option bool)
    (req : Request) (w : World) (i : Z) :
  column_id cast_id (params_id req) = Some i ->
  let updated := rows (db (snd (UpdateTodo cast_id cast_bool req w))) in
  let deleted := rows (db (snd (DeleteTodo cast_id req w))) in
  Permutation (others i updated) (others i (rows (db w)))
  /\ List.length updated = List.length (rows (db w))
  /\ (forall t', In t' updated -> todo_id t' = i ->
        exists t, In t (rows (db w))
                  /\ todo_id t = i /\ todo_task t = todo_task t')
  /\ (forall b, outage (db w) = None -> body_done req = JBool b ->
        forall t', In t' updated -> todo_id t' = i -> todo_done t' = b)
  /\ Permutation (others i deleted) (others i (rows (db w)))
  /\ (forall t, In t deleted -> In t (rows (db w)))
  /\ (outage (db w) = None -> forall t, In t deleted -> todo_id t <> i)
  /\ fst (handleUpdateIntent cast_id cast_bool
            (update_intent (JNum 2) JUndefined JUndefined JUndefined
                           (JBool true))
            (ai_request "mark task 2 as done") two_todos)
     = json 200 (TodosBody [mkTodo 2 "Read book" true])
  /\ Permutation
       (rows (db (snd (handleUpdateIntent cast_id cast_bool
                         (update_intent (JNum 2) JUndefined JUndefined
                                        JUndefined (JBool true))
                         (ai_request "mark task 2 as done") two_todos))))
       [buy_milk; mkTodo 2 "Read book" true].
Proof.
  intros Hi updated deleted.
  pose proof (UpdateTodo_rows cast_id cast_bool req w i Hi) as Hu.
  pose proof (DeleteTodo_rows cast_id req w i Hi) as Hd.
  fold updated in Hu. fold deleted in Hd.
  split; [|split; [|split; [|split; [|split; [|split; [|split; [|split]]]]]]].
  - destruct Hu as [->|[b ->]]; [reflexivity|].
    now rewrite others_patched.
  - destruct Hu as [->|[b ->]]; [reflexivity | apply length_map].
  - intros t' Ht' Hid. destruct Hu as [E|[b E]]; rewrite E in Ht'.
    + now exists t'.
    + apply in_map_iff in Ht' as (u & <- & Hin).
      exists u. rewrite patched_id in Hid. rewrite patched_task. auto.
  - intros b Hout Hdone t' Ht' Hid. unfold updated in Ht'.
    rewrite (UpdateTodo_patches cast_id cast_bool req w i b Hi Hout Hdone)
      in Ht'.
    apply in_map_iff in Ht' as (u & <- & Hin).
    rewrite patched_id in Hid. now rewrite (patched_target i b u Hid).
  - destruct Hd as [->| ->]; [reflexivity | now rewrite others_idem].
  - intros t Ht. destruct Hd as [E|E]; rewrite E in Ht; [exact Ht|].
    unfold others in Ht. now apply filter_In in Ht.
  - intros Hout t Ht. unfold deleted in Ht.
    rewrite (DeleteTodo_removes cast_id req w i Hi Hout) in Ht.
    unfold others in Ht. apply filter_In in Ht as [_ Ht].
    unfold has_id in Ht. intros E. rewrite E, Z.eqb_refl in Ht.
    discriminate Ht.
  - reflexivity.
  - reflexivity.
Qed.

Lemma update_delete_touch_only_target_witness :
  Permutation
    (others 2 (rows (db (snd (UpdateTodo strict_id strict_bool
                                (done_request 2 true) two_todos)))))
    (others 2 (rows (db two_todos)))
  /\ (forall t,
        In t (rows (db (snd (DeleteTodo strict_id (done_request 2 true)
                               two_todos)))) ->
        todo_id t <> 2)
  /\ (forall t',
        In t' (rows (db (snd (UpdateTodo strict_id strict_bool
                                (done_request 2 true) two_todos)))) ->
        todo_id t' = 2 -> todo_done t' = true).
Proof.
  destruct (update_delete_touch_only_target strict_id strict_bool
              (done_request 2 true) two_todos 2 eq_refl)
    as (Hothers & _ & _ & Hflag & _ & _ & Hgone & _).
  split; [exact Hothers | split].
  - exact (Hgone eq_refl).
  - exact (Hflag true eq_refl eq_refl).
Defined.

(** C10.  A request to the natural-language endpoint whose body has no
    prompt (absent, the empty string, or any other falsy value) is
    answered 400 "Prompt is required", whatever the text-generation
    service and the parser would do, and the world is as it was: neither
    the service nor the store has been called. *)
Theorem prompt_required
    (cast_id : JsValue -> option Z) (cast_text : JsValue -> option string)
    (cast_bool : JsValue -> option bool)
    (generate : JsValue -> Generated) (JSON_parse : string -> ParseResult)
    (req : Request) (w : World) :
  truthy (body_prompt req) = false ->
  handleAiPrompt cast_id cast_text cast_bool generate JSON_parse req w
  = (json 400 (ErrorBody (Message "Prompt is required")), w).
Proof.
  intros H. unfold handleAiPrompt. now rewrite H.
Qed.

Lemma prompt_required_witness :
  handleAiPrompt strict_id strict_text strict_bool
    (fun _ => GenText (JStr "{ }")) (fun _ => ParsedNull)
    empty_request two_todos
  = (json 400 (ErrorBody (Message "Prompt is required")), two_todos)
  /\ handleAiPrompt strict_id strict_text strict_bool
       (fun _ => GenText (JStr "{ }")) (fun _ => ParsedNull)
       (ai_request "") two_todos
     = (json 400 (ErrorBody (Message "Prompt is required")), two_todos).
Proof.
  split; apply prompt_required; reflexivity.
Defined.

(** C1.  What the code does with a replacement task text: [UpdateTodo]
    reads [done] only, so no update ever changes a task text, although
    [handleUpdateIntent] has copied [newTask] into [req.body.task].  On
    the two-record table, the intent update with id 2, done true and
    newTask "Read novel" answers with record 2 done and its task still
    "Read book"; and the resolver's own example, task "read book" with
    newTask "read novel", sends an empty patch and changes nothing. *)
Theorem update_drops_new_task_text
    (cast_id : JsValue -> option Z) (cast_bool : JsValue -> option bool) :
  (forall req w,
     map todo_task (rows (db (snd (UpdateTodo cast_id cast_bool req w))))
     = map todo_task (rows (db w)))
  /\ handleUpdateIntent cast_id cast_bool
       (update_intent (JNum 2) JUndefined JUndefined
                      (JStr "Read novel") (JBool true))
       (ai_request "rename task 2 to Read novel and mark it done") two_todos
     = (json 200 (TodosBody [mkTodo 2 "Read book" true]),
        mkWorld (mkStore [buy_milk; mkTodo 2 "Read book" true] 3 None)
                [CallUpdate])
  /\ handleUpdateIntent cast_id cast_bool
       (update_intent JUndefined JUndefined (JStr "read book")
                      (JStr "read novel") JUndefined)
       (ai_request "change 'read book' to 'read novel'") two_todos
     = (json 200 (TodosBody []),
        mkWorld (mkStore [buy_milk; read_book] 3 None)
                [CallSelect; CallUpdate]).
Proof.
  split; [|split; reflexivity].
  intros req w. unfold UpdateTodo, supabase_update.
  destruct (outage (db w)); [reflexivity|].
  destruct (column_id cast_id (params_id req)) as [i|]; [|reflexivity].
  destruct (body_done req); try reflexivity;
    destruct (column_bool cast_bool _); try reflexivity;
    apply tasks_patched.
Qed.

(** ** Effects of the handlers on the world *)

Lemma effect_after_select (c : Call) (w w1 w' : World) :
  w1 = record_call CallSelect w ->
  effect [c] w1 w' ->
  effect [CallSelect; c] w w'.
Proof.
  intros -> [Hc Ht]. split; [|exact Ht].
  rewrite Hc. simpl. now rewrite <- app_assoc.
Qed.

Lemma effect_after_generate (l : list Call) (w w' : World) :
  effect l (record_call CallGenerate w) w' ->
  effect (CallGenerate :: l) w w'.
Proof.
  intros [Hc Ht]. split; [|exact Ht].
  rewrite Hc. simpl. now rewrite <- app_assoc.
Qed.

Lemma effect_none (w : World) : effect [] w w.
Proof. split; [now rewrite app_nil_r | constructor]. Qed.

Lemma effect_call (c : Call) (w : World) : effect [c] w (record_call c w).
Proof. split; [reflexivity | constructor]. Qed.

Lemma GetTodos_world (res : bool) (w : World) :
  snd (GetTodos res w) = record_call CallSelect w.
Proof.
  unfold GetTodos, supabase_select.
  destruct (outage (db w)), res; reflexivity.
Qed.

Lemma findTodoIdByPosition_world (p : Z) (w : World) :
  snd (findTodoIdByPosition p w) = record_call CallSelect w.
Proof.
  unfold findTodoIdByPosition, GetTodos, supabase_select.
  destruct (outage (db w)); [reflexivity|].
  destruct (_ =? 0); [reflexivity|].
  destruct (_ || _); [reflexivity|].
  now destruct (nth_error _ _).
Qed.

Lemma findTodoIdByPartialTaskName_world (s : string) (w : World) :
  snd (findTodoIdByPartialTaskName s w) = record_call CallSelect w.
Proof.
  unfold findTodoIdByPartialTaskName, GetTodos, supabase_select.
  destruct (outage (db w)); [reflexivity|].
  destruct (_ =? 0); [reflexivity|].
  now destruct (find _ _).
Qed.

Section Effects.

Variable cast_id : JsValue -> option Z.
Variable cast_text : JsValue -> option string.
Variable cast_bool : JsValue -> option bool.
Variable generate : JsValue -> Generated.
Variable JSON_parse : string -> ParseResult.

Lemma UpdateTodo_effect (req : Request) (w : World) :
  effect [CallUpdate] w (snd (UpdateTodo cast_id cast_bool req w)).
Proof.
  unfold UpdateTodo, supabase_update.
  destruct (outage (db w)); [apply effect_call|].
  destruct (column_id cast_id (params_id req)) as [i|]; [|apply effect_call].
  destruct (body_done req); try apply effect_call;
    destruct (column_bool cast_bool _); try apply effect_call;
    (split; [reflexivity | apply Patched]).
Qed.

Lemma DeleteTodo_effect (req : Request) (w : World) :
  effect [CallDelete] w (snd (DeleteTodo cast_id req w)).
Proof.
  unfold DeleteTodo, supabase_delete.
  destruct (outage (db w)); [apply effect_call|].
  destruct (column_id cast_id (params_id req)) as [i|]; [|apply effect_call].
  split; [reflexivity | apply Removed].
Qed.

Lemma CreateTodo_effect (req : Request) (w : World) :
  effect [] w (snd (CreateTodo cast_text req w))
  \/ effect [CallInsert] w (snd (CreateTodo cast_text req w)).
Proof.
  unfold CreateTodo, supabase_insert.
  destruct (truthy (body_task req)); [|left; apply effect_none].
  right. simpl negb. cbv iota.
  destruct (outage (db w)); [apply effect_call|].
  destruct (column_text cast_text (body_task req)) as [s|]; [|apply effect_call].
  split; [reflexivity | apply Inserted].
Qed.

(** The shape both intent handlers share after a lookup. *)
Lemma lookup_then_effect
    (r : Completion JsValue * World) (w : World) (c : Call)
    (miss : Completion Response)
    (k : JsValue -> World -> Completion Response * World) :
  snd r = record_call CallSelect w ->
  (forall id w1, effect [c] w1 (snd (k id w1))) ->
  effect [CallSelect] w
    (snd (match r with
          | (Throw e, w1) => (Throw e, w1)
          | (Return id, w1) =>
              if negb (truthy id) then (miss, w1) else k id w1
          end))
  \/ effect [CallSelect; c] w
       (snd (match r with
             | (Throw e, w1) => (Throw e, w1)
             | (Return id, w1) =>
                 if negb (truthy id) then (miss, w1) else k id w1
             end)).
Proof.
  intros Hw Hk. destruct r as [[id|e] w1]; simpl in Hw; subst w1.
  - destruct (negb (truthy id)).
    + left. apply effect_call.
    + right. eapply effect_after_select; [reflexivity | apply Hk].
  - left. apply effect_call.
Qed.

Lemma handleUpdateIntent_effect (parsed : Parsed) (req : Request) (w : World) :
  exists l,
    In l [ []; [CallSelect]; [CallUpdate]; [CallSelect; CallUpdate] ]
    /\ effect l w (snd (handleUpdateIntent cast_id cast_bool parsed req w)).
Proof.
  assert (Hpos : forall p miss,
    exists l,
      In l [ []; [CallSelect]; [CallUpdate]; [CallSelect; CallUpdate] ]
      /\ effect l w
           (snd (match findTodoIdByPosition p w with
                 | (Throw e, w1) => (Throw e, w1)
                 | (Return id, w1) =>
                     if negb (truthy id) then (miss, w1)
                     else UpdateTodo cast_id cast_bool
                            (update_request id parsed req) w1
                 end))).
  { intros p miss.
    destruct (lookup_then_effect (findTodoIdByPosition p w) w CallUpdate miss
                (fun id w1 => UpdateTodo cast_id cast_bool
                                (update_request id parsed req) w1)
                (findTodoIdByPosition_world p w)
                (fun id w1 => UpdateTodo_effect _ w1)) as [H|H];
      eexists; (split; [|exact H]); simpl; tauto. }
  assert (Htask : forall s miss,
    exists l,
      In l [ []; [CallSelect]; [CallUpdate]; [CallSelect; CallUpdate] ]
      /\ effect l w
           (snd (match findTodoIdByPartialTaskName s w with
                 | (Throw e, w1) => (Throw e, w1)
                 | (Return id, w1) =>
                     if negb (truthy id) then (miss, w1)
                     else UpdateTodo cast_id cast_bool
                            (update_request id parsed req) w1
                 end))).
  { intros s miss.
    destruct (lookup_then_effect (findTodoIdByPartialTaskName s w) w CallUpdate
                miss
                (fun id w1 => UpdateTodo cast_id cast_bool
                                (update_request id parsed req) w1)
                (findTodoIdByPartialTaskName_world s w)
                (fun id w1 => UpdateTodo_effect _ w1)) as [H|H];
      eexists; (split; [|exact H]); simpl; tauto. }
  assert (Hid : exists l,
      In l [ []; [CallSelect]; [CallUpdate]; [CallSelect; CallUpdate] ]
      /\ effect l w w)
    by (exists []; split; [simpl; tauto | apply effect_none]).
  unfold handleUpdateIntent.
  destruct (parsed_id parsed);
    try (exists [CallUpdate]; split; [simpl; tauto | apply UpdateTodo_effect]);
    destruct (parsed_position parsed); try apply Hpos;
    destruct (parsed_task parsed); try apply Htask; exact Hid.
Qed.

Lemma handleDeleteIntent_effect (parsed : Parsed) (req : Request) (w : World) :
  exists l,
    In l [ []; [CallSelect]; [CallDelete]; [CallSelect; CallDelete] ]
    /\ effect l w (snd (handleDeleteIntent cast_id parsed req w)).
Proof.
  assert (Hpos : forall p miss,
    exists l,
      In l [ []; [CallSelect]; [CallDelete]; [CallSelect; CallDelete] ]
      /\ effect l w
           (snd (match findTodoIdByPosition p w with
                 | (Throw e, w1) => (Throw e, w1)
                 | (Return id, w1) =>
                     if negb (truthy id) then (miss, w1)
                     else DeleteTodo cast_id (set_params_id id req) w1
                 end))).
  { intros p miss.
    destruct (lookup_then_effect (findTodoIdByPosition p w) w CallDelete miss
                (fun id w1 => DeleteTodo cast_id (set_params_id id req) w1)
                (findTodoIdByPosition_world p w)
                (fun id w1 => DeleteTodo_effect _ w1)) as [H|H];
      eexists; (split; [|exact H]); simpl; tauto. }
  assert (Htask : forall s miss,
    exists l,
      In l [ []; [CallSelect]; [CallDelete]; [CallSelect; CallDelete] ]
      /\ effect l w
           (snd (match findTodoIdByPartialTaskName s w with
                 | (Throw e, w1) => (Throw e, w1)
                 | (Return id, w1) =>
                     if negb (truthy id) then (miss, w1)
                     else DeleteTodo cast_id (set_params_id id req) w1
                 end))).
  { intros s miss.
    destruct (lookup_then_effect (findTodoIdByPartialTaskName s w) w CallDelete
                miss
                (fun id w1 => DeleteTodo cast_id (set_params_id id req) w1)
                (findTodoIdByPartialTaskName_world s w)
                (fun id w1 => DeleteTodo_effect _ w1)) as [H|H];
      eexists; (split; [|exact H]); simpl; tauto. }
  assert (Hid : exists l,
      In l [ []; [CallSelect]; [CallDelete]; [CallSelect; CallDelete] ]
      /\ effect l w w)
    by (exists []; split; [simpl; tauto | apply effect_none]).
  unfold handleDeleteIntent.
  destruct (parsed_id parsed);
    try (exists [CallDelete]; split; [simpl; tauto | apply DeleteTodo_effect]);
    destruct (parsed_position parsed); try apply Hpos;
    destruct (parsed_task parsed); try apply Htask; exact Hid.
Qed.

Lemma dispatch_effect (parsed : Parsed) (req : Request) (w : World) :
  exists l,
    In l store_calls
    /\ effect l w (snd (dispatch cast_id cast_text cast_bool parsed req w)).
Proof.
  assert (Hnone : exists l, In l store_calls /\ effect l w w)
    by (exists []; split; [simpl; tauto | apply effect_none]).
  unfold dispatch.
  destruct (parsed_intent parsed) as [| |b|n|intent|]; try exact Hnone.
  destruct (String.eqb intent "create").
  { destruct (negb (truthy (parsed_task parsed))); [exact Hnone|].
    destruct (CreateTodo_effect (set_body_task (parsed_task parsed) req) w)
      as [H|H]; eexists; (split; [|exact H]); simpl; tauto. }
  destruct (String.eqb intent "read").
  { exists [CallSelect]. split; [simpl; tauto|].
    pose proof (GetTodos_world true w) as Hw.
    destruct (GetTodos true w) as [[[r|data]|e] w1]; simpl in Hw; subst w1;
      apply effect_call. }
  destruct (String.eqb intent "update").
  { destruct (handleUpdateIntent_effect parsed req w) as (l & Hl & H).
    exists l. split; [|exact H]. simpl in *. tauto. }
  destruct (String.eqb intent "delete"); [|exact Hnone].
  destruct (handleDeleteIntent_effect parsed req w) as (l & Hl & H).
  exists l. split; [|exact H]. simpl in *. tauto.
Qed.

Lemma handleAiPrompt_effect (req : Request) (w : World) :
  truthy (body_prompt req) = true ->
  exists l,
    In l store_calls
    /\ effect (CallGenerate :: l) w
         (snd (handleAiPrompt cast_id cast_text cast_bool generate JSON_parse
                 req w)).
Proof.
  intros Hp. unfold handleAiPrompt. rewrite Hp. simpl negb. cbv iota.
  assert (Hnone : forall r : Completion Response,
             exists l, In l store_calls
               /\ effect (CallGenerate :: l) w
                    (snd (r, record_call CallGenerate w))).
  { intros r. exists []. split; [simpl; tauto | apply effect_call]. }
  destruct (generate (body_prompt req)) as [e|m|rawText]; try apply Hnone.
  destruct (negb (truthy rawText)); [apply Hnone|].
  destruct rawText as [| |b|n|text|]; try apply Hnone.
  destruct (JSON_parse (cleanJsonString text)) as [| |parsed]; try apply Hnone.
  destruct (dispatch_effect parsed req (record_call CallGenerate w))
    as (l & Hl & H).
  exists l. split; [exact Hl | now apply effect_after_generate].
Qed.

End Effects.

(** ** What a transition keeps *)

Lemma NoDup_snoc {A : Type} (l : list A) (x : A) :
  NoDup l -> ~ In x l -> NoDup (l ++ [x]).
Proof.
  induction 1 as [|y l Hy Hl IH]; simpl; intros Hx.
  - constructor; [intros [] | constructor].
  - constructor.
    + rewrite in_app_iff. simpl. intros [H|[H|[]]]; [contradiction|].
      apply Hx. now left.
    + apply IH. intros H. apply Hx. now right.
Qed.

Lemma NoDup_ids_filter (f : Todo -> bool) (l : list Todo) :
  NoDup (map todo_id l) -> NoDup (map todo_id (filter f l)).
Proof.
  induction l as [|t l IH]; simpl; intros H; [constructor|].
  inversion H as [|x xs Hx Hxs]; subst.
  destruct (f t); simpl; [|now apply IH].
  constructor; [|now apply IH].
  intros Hin. apply Hx. apply in_map_iff in Hin as (u & Hu & Hin).
  apply filter_In in Hin as [Hin _]. apply in_map_iff. now exists u.
Qed.

Lemma Transition_ids_fresh (s s' : Store) :
  Transition s s' -> ids_fresh s -> ids_fresh s'.
Proof.
  intros T [Hnd Hlt]. destruct T as [|task|i b|i]; unfold ids_fresh; simpl.
  - now split.
  - split.
    + rewrite map_app. simpl. apply NoDup_snoc; [exact Hnd|].
      intros Hin. apply in_map_iff in Hin as (u & Hu & Hin).
      specialize (Hlt u Hin). lia.
    + intros t Ht. apply in_app_iff in Ht as [Ht|[<-|[]]].
      * specialize (Hlt t Ht). lia.
      * simpl. lia.
  - split.
    + now rewrite ids_patched.
    + intros t Ht. apply in_map_iff in Ht as (u & <- & Hu).
      rewrite patched_id. now apply Hlt.
  - split.
    + now apply NoDup_ids_filter.
    + intros t Ht. apply filter_In in Ht as [Ht _]. now apply Hlt.
Qed.

Lemma Transition_keeps_text (s s' : Store) (t' : Todo) :
  Transition s s' -> In t' (rows s') ->
  (exists t, In t (rows s)
             /\ todo_id t' = todo_id t /\ todo_task t' = todo_task t)
  \/ (exists task, t' = mkTodo (next_id s) task false).
Proof.
  intros T Ht. destruct T as [|task|i b|i]; simpl in Ht.
  - left. now exists t'.
  - apply in_app_iff in Ht as [Ht|[<-|[]]].
    + left. now exists t'.
    + right. now exists task.
  - apply in_map_iff in Ht as (u & <- & Hu). left. exists u.
    now rewrite patched_id, patched_task.
  - apply filter_In in Ht as [Ht _]. left. now exists t'.
Qed.

Lemma map_patched_others (i : Z) (b : bool) (l : list Todo) :
  (forall t, In t l -> todo_id t <> i) -> map (patched i b) l = l.
Proof.
  intros H. induction l as [|t l IH]; simpl; [reflexivity|].
  unfold patched at 1. rewrite (has_id_false i t) by (apply H; now left).
  f_equal. apply IH. intros u Hu. apply H. now right.
Qed.

Lemma patched_idem (i : Z) (b : bool) (l : list Todo) :
  map (patched i b) (map (patched i b) l) = map (patched i b) l.
Proof.
  rewrite map_map. apply map_ext. intros t. unfold patched.
  destruct (has_id i t) eqn:E; [|now rewrite E].
  unfold has_id in *. simpl. now rewrite E.
Qed.

Lemma has_id_others (i : Z) (l : list Todo) : filter (has_id i) (others i l) = [].
Proof.
  apply filter_nothing. intros t Ht. unfold others in Ht.
  apply filter_In in Ht as [_ Ht]. now destruct (has_id i t).
Qed.

Lemma fresh_rows_miss (s : Store) (t : Todo) :
  ids_fresh s -> In t (rows s) -> todo_id t <> next_id s.
Proof. intros [_ H] Ht. specialize (H t Ht). lia. Qed.

(** ** The handlers taken together *)

Section Requests.

Variable cast_id : JsValue -> option Z.
Variable cast_text : JsValue -> option string.
Variable cast_bool : JsValue -> option bool.
Variable generate : JsValue -> Generated.
Variable JSON_parse : string -> ParseResult.


(** X2.  Every handler keeps the ids of the table pairwise distinct and
    below the next id the store will assign: the four CRUD handlers and
    the natural-language endpoint, whatever the model answers. *)
Theorem handlers_keep_ids_fresh (req : Request) (w : World) :
  ids_fresh (db w) ->
  ids_fresh (db (snd (CreateTodo cast_text req w)))
  /\ ids_fresh (db (snd (GetTodos true w)))
  /\ ids_fresh (db (snd (UpdateTodo cast_id cast_bool req w)))
  /\ ids_fresh (db (snd (DeleteTodo cast_id req w)))
  /\ ids_fresh (db (snd (handleAiPrompt cast_id cast_text cast_bool generate JSON_parse req w))).
Proof.
  intros H. split; [|split; [|split; [|split]]].
  - destruct (CreateTodo_effect cast_text req w) as [[_ T]|[_ T]];
      exact (Transition_ids_fresh _ _ T H).
  - now rewrite GetTodos_world.
  - destruct (UpdateTodo_effect cast_id cast_bool req w) as [_ T].
    exact (Transition_ids_fresh _ _ T H).
  - destruct (DeleteTodo_effect cast_id req w) as [_ T].
    exact (Transition_ids_fresh _ _ T H).
  - destruct (truthy (body_prompt req)) eqn:Hp.
    + destruct (handleAiPrompt_effect cast_id cast_text cast_bool generate
                  JSON_parse req w Hp) as (l & _ & _ & T).
      exact (Transition_ids_fresh _ _ T H).
    + unfold handleAiPrompt. now rewrite Hp.
Qed.

(** X3.  No request to the natural-language endpoint changes the id or
    the task text of a stored record: every record of the table after
    the request has the id and the text of a record that was there
    before, or is the one record the request created, under the id the
    store had next. *)
Theorem ai_request_keeps_ids_and_text (req : Request) (w : World) (t' : Todo) :
  In t' (rows (db (snd (handleAiPrompt cast_id cast_text cast_bool generate JSON_parse req w)))) ->
  (exists t, In t (rows (db w))
             /\ todo_id t' = todo_id t /\ todo_task t' = todo_task t)
  \/ (exists task, t' = mkTodo (next_id (db w)) task false).
Proof.
  intros Ht. destruct (truthy (body_prompt req)) eqn:Hp.
  - destruct (handleAiPrompt_effect cast_id cast_text cast_bool generate
                JSON_parse req w Hp) as (l & _ & _ & T).
    exact (Transition_keeps_text _ _ t' T Ht).
  - unfold handleAiPrompt in Ht. rewrite Hp in Ht. left. now exists t'.
Qed.

End Requests.


Lemma two_todos_fresh : ids_fresh (db two_todos).
Proof.
  split.
  - simpl. repeat constructor; simpl; intuition discriminate.
  - intros t [<-|[<-|[]]]; simpl; lia.
Defined.

Lemma handlers_keep_ids_fresh_witness :
  ids_fresh (db (snd (CreateTodo strict_text (task_request "Walk dog") two_todos)))
  /\ ids_fresh (db (snd (DeleteTodo strict_id (task_request "Walk dog") two_todos))).
Proof.
  destruct (handlers_keep_ids_fresh strict_id strict_text strict_bool
              model_reply (parses_to (delete_intent JUndefined JUndefined JUndefined))
              (task_request "Walk dog") two_todos two_todos_fresh)
    as (Hc & _ & _ & Hd & _).
  split; assumption.
Defined.

Lemma ai_request_keeps_ids_and_text_witness :
  (exists t, In t (rows (db two_todos))
             /\ todo_id (mkTodo 2 "Read book" true) = todo_id t
             /\ todo_task (mkTodo 2 "Read book" true) = todo_task t)
  \/ (exists task, mkTodo 2 "Read book" true
                   = mkTodo (next_id (db two_todos)) task false).
Proof.
  apply (ai_request_keeps_ids_and_text strict_id strict_text strict_bool
           model_reply
           (parses_to (update_intent (JNum 2) JUndefined JUndefined
                         (JStr "Read novel") (JBool true)))
           (ai_request "rename task 2 and mark it done") two_todos).
  simpl. right. left. reflexivity.
Defined.

(** ** Sequences of CRUD calls *)

Section Sequences.

Variable cast_id : JsValue -> option Z.
Variable cast_text : JsValue -> option string.
Variable cast_bool : JsValue -> option bool.

Lemma CreateTodo_created (req : Request) (w : World) (s : string) :
  body_task req = JStr s -> s <> "" -> outage (db w) = None ->
  CreateTodo cast_text req w
  = (json 201 (TodoBody (mkTodo (next_id (db w)) s false)),
     with_rows (rows (db w) ++ [mkTodo (next_id (db w)) s false])
               (next_id (db w) + 1) (record_call CallInsert w)).
Proof.
  intros Hs Hne Hout. unfold CreateTodo, supabase_insert.
  rewrite Hs, Hout. simpl.
  destruct (String.eqb_spec s ""); [contradiction | reflexivity].
Qed.

Lemma filter_target_snoc (l : list Todo) (t : Todo) :
  (forall u, In u l -> todo_id u <> todo_id t) ->
  filter (has_id (todo_id t)) (l ++ [t]) = [t]
  /\ others (todo_id t) (l ++ [t]) = l.
Proof.
  intros H. unfold others. rewrite !filter_app. simpl.
  unfold has_id at 2 4. rewrite Z.eqb_refl. simpl.
  rewrite filter_nothing, filter_all.
  - split; [reflexivity | apply app_nil_r].
  - intros u Hu. now rewrite (has_id_false _ u (H u Hu)).
  - intros u Hu. exact (has_id_false _ u (H u Hu)).
Qed.

(** X4.  After a create with a non-empty task text on an answering
    store, the list handler answers 200 with the rows that were there,
    in their order, followed by the new record: its id is the one the
    store assigned, its text the one sent, and [done] is false. *)
Theorem create_then_list (req : Request) (w : World) (s : string) :
  body_task req = JStr s -> s <> "" -> outage (db w) = None ->
  fst (GetTodos true (snd (CreateTodo cast_text req w)))
  = Return (Answered (mkResponse 200
      (TodosBody (rows (db w) ++ [mkTodo (next_id (db w)) s false])))).
Proof.
  intros Hs Hne Hout. rewrite (CreateTodo_created req w s Hs Hne Hout).
  unfold GetTodos, supabase_select. simpl. now rewrite Hout.
Qed.

(** X5.  Deleting the record a create has just made, by the id the
    create returned, answers 200 with that record and leaves the rows of
    the table exactly as they were before the create; the id is not
    given out again.  The ids of the table are taken to be below the next
    id, as the handlers keep them. *)
Theorem create_then_delete (req req' : Request) (w : World) (s : string) :
  body_task req = JStr s -> s <> "" -> outage (db w) = None ->
  ids_fresh (db w) ->
  column_id cast_id (params_id req') = Some (next_id (db w)) ->
  let created := mkTodo (next_id (db w)) s false in
  let w2 := snd (DeleteTodo cast_id req' (snd (CreateTodo cast_text req w))) in
  fst (DeleteTodo cast_id req' (snd (CreateTodo cast_text req w)))
  = json 200 (TodosBody [created])
  /\ rows (db w2) = rows (db w)
  /\ next_id (db w2) = next_id (db w) + 1.
Proof.
  intros Hs Hne Hout Hfresh Hid created w2. unfold w2.
  rewrite (CreateTodo_created req w s Hs Hne Hout).
  destruct (filter_target_snoc (rows (db w)) created) as [Hf Ho].
  { intros u Hu. exact (fresh_rows_miss _ u Hfresh Hu). }
  unfold DeleteTodo, supabase_delete. simpl. rewrite Hout, Hid. simpl.
  fold created. change (todo_id created) with (next_id (db w)) in Hf, Ho.
  unfold others in Ho. rewrite Hf, Ho. auto.
Qed.

(** X6.  Updating the record a create has just made, by the id the
    create returned and with a boolean [done], answers 200 with that one
    record carrying the new flag and the text it was created with; the
    rows that were there before are as they were. *)
Theorem create_then_update
    (req req' : Request) (w : World) (s : string) (b : bool) :
  body_task req = JStr s -> s <> "" -> outage (db w) = None ->
  ids_fresh (db w) ->
  column_id cast_id (params_id req') = Some (next_id (db w)) ->
  body_done req' = JBool b ->
  let updated := mkTodo (next_id (db w)) s b in
  fst (UpdateTodo cast_id cast_bool req' (snd (CreateTodo cast_text req w)))
  = json 200 (TodosBody [updated])
  /\ rows (db (snd (UpdateTodo cast_id cast_bool req'
                      (snd (CreateTodo cast_text req w)))))
     = (rows (db w) ++ [updated])%list.
Proof.
  intros Hs Hne Hout Hfresh Hid Hdone updated.
  rewrite (CreateTodo_created req w s Hs Hne Hout).
  assert (Hmiss : forall u, In u (rows (db w)) -> todo_id u <> next_id (db w))
    by (intros u Hu; exact (fresh_rows_miss _ u Hfresh Hu)).
  assert (Hmap : map (patched (next_id (db w)) b)
                     (rows (db w) ++ [mkTodo (next_id (db w)) s false])
                 = (rows (db w) ++ [updated])%list).
  { rewrite map_app, (map_patched_others _ b _ Hmiss). simpl.
    unfold patched, has_id. simpl. now rewrite Z.eqb_refl. }
  unfold UpdateTodo, supabase_update. simpl. rewrite Hout, Hid, Hdone. simpl.
  rewrite Hmap.
  destruct (filter_target_snoc (rows (db w)) updated Hmiss) as [Hf _].
  change (todo_id updated) with (next_id (db w)) in Hf.
  rewrite Hf. auto.
Qed.

(** X7.  Repeating an update or a delete changes nothing more: the
    table after the second call is the table after the first.  The
    second update gives the answer the first gave, and the second delete,
    the store answering, returns no row. *)
Theorem update_delete_idempotent (req : Request) (w : World) :
  db (snd (UpdateTodo cast_id cast_bool req
             (snd (UpdateTodo cast_id cast_bool req w))))
  = db (snd (UpdateTodo cast_id cast_bool req w))
  /\ fst (UpdateTodo cast_id cast_bool req
            (snd (UpdateTodo cast_id cast_bool req w)))
     = fst (UpdateTodo cast_id cast_bool req w)
  /\ db (snd (DeleteTodo cast_id req (snd (DeleteTodo cast_id req w))))
     = db (snd (DeleteTodo cast_id req w))
  /\ (forall i,
        column_id cast_id (params_id req) = Some i -> outage (db w) = None ->
        fst (DeleteTodo cast_id req (snd (DeleteTodo cast_id req w)))
        = json 200 (TodosBody [])).
Proof.
  unfold UpdateTodo, DeleteTodo, supabase_update, supabase_delete.
  destruct (outage (db w)) as [m|] eqn:Hout.
  { simpl. rewrite Hout. repeat split; try reflexivity.
    intros i _ H. discriminate H. }
  destruct (column_id cast_id (params_id req)) as [i|] eqn:Hid.
  2:{ simpl. rewrite Hout. repeat split; try reflexivity.
      intros i H. discriminate H. }
  split; [|split; [|split]].
  - destruct (body_done req); simpl; rewrite ?Hout; simpl;
      try (destruct (cast_bool _)); simpl;
      rewrite ?Hout, ?patched_idem; simpl; rewrite ?Hout; reflexivity.
  - destruct (body_done req); simpl; rewrite ?Hout; simpl;
      try (destruct (cast_bool _)); simpl;
      rewrite ?Hout, ?patched_idem; simpl; rewrite ?Hout; reflexivity.
  - pose proof (others_idem i (rows (db w))) as H. unfold others in H.
    simpl. rewrite Hout. simpl. now rewrite H, Hout.
  - intros j [= <-] _.
    pose proof (has_id_others i (rows (db w))) as H. unfold others in H.
    simpl. rewrite Hout. simpl. now rewrite H.
Qed.

End Sequences.

Lemma create_then_list_witness :
  fst (GetTodos true
         (snd (CreateTodo strict_text (task_request "Walk dog") two_todos)))
  = Return (Answered (mkResponse 200
      (TodosBody [buy_milk; read_book; mkTodo 3 "Walk dog" false]))).
Proof.
  apply (create_then_list strict_text (task_request "Walk dog") two_todos
           "Walk dog"); [reflexivity | discriminate | reflexivity].
Defined.

Lemma create_then_delete_witness :
  fst (DeleteTodo strict_id (id_request 3)
         (snd (CreateTodo strict_text (task_request "Walk dog") two_todos)))
  = json 200 (TodosBody [mkTodo 3 "Walk dog" false])
  /\ rows (db (snd (DeleteTodo strict_id (id_request 3)
                      (snd (CreateTodo strict_text (task_request "Walk dog")
                              two_todos)))))
     = [buy_milk; read_book].
Proof.
  destruct (create_then_delete strict_id strict_text
              (task_request "Walk dog") (id_request 3) two_todos "Walk dog")
    as (Ha & Hr & _);
    [reflexivity | discriminate | reflexivity | exact two_todos_fresh
    | reflexivity |].
  split; [exact Ha | exact Hr].
Defined.

Lemma create_then_update_witness :
  fst (UpdateTodo strict_id strict_bool (done_request 3 true)
         (snd (CreateTodo strict_text (task_request "Walk dog") two_todos)))
  = json 200 (TodosBody [mkTodo 3 "Walk dog" true]).
Proof.
  destruct (create_then_update strict_id strict_text strict_bool
              (task_request "Walk dog") (done_request 3 true) two_todos
              "Walk dog" true)
    as (Ha & _);
    [reflexivity | discriminate | reflexivity | exact two_todos_fresh
    | reflexivity | reflexivity |].
  exact Ha.
Defined.

(** ** More on the two lookups *)

Lemma find_first_inv {A : Type} (f : A -> bool) (l : list A) (x : A) :
  find f l = Some x ->
  exists before after,
    l = (before ++ x :: after)%list
    /\ f x = true
    /\ forall y, In y before -> f y = false.
Proof.
  induction l as [|y l IH]; simpl; [discriminate|].
  destruct (f y) eqn:E.
  - intros [= ->]. exists [], l. repeat split; [exact E | intros z []].
  - intros H. destruct (IH H) as (before & after & -> & Hx & Hb).
    exists (y :: before), after. repeat split; [exact Hx|].
    intros z [<-|Hz]; [exact E | now apply Hb].
Qed.

Lemma append_nil_r (s : string) : s ++ "" = s.
Proof. induction s as [|c s IH]; simpl; [reflexivity | now rewrite IH]. Qed.

Lemma contains_ci_refl (s : string) : contains_ci s s.
Proof. exists "", "". simpl. now rewrite append_nil_r. Qed.

Lemma in_range_positions (p n : Z) :
  in_range (spec_index p n) n <-> 1 <= p <= n \/ - n <= p <= -1.
Proof.
  unfold in_range, spec_index. destruct (Z_gt_dec p 0); lia.
Qed.

(** X8.  On a list of [n] records (the store answering) the positions
    that resolve are exactly 1 .. n and -n .. -1: position 0, positions
    beyond [n] and positions before [-n] give [null].  Counting from the
    front and from the back agree: position [p] in 1 .. n and position
    [p - n - 1] give the same record. *)
Theorem positions_that_resolve (w : World) (p : Z) :
  outage (db w) = None ->
  let n := Z.of_nat (List.length (rows (db w))) in
  (fst (findTodoIdByPosition p w) = Return JNull
   <-> p = 0 \/ n < p \/ p < - n)
  /\ (1 <= p <= n ->
      findTodoIdByPosition (p - n - 1) w = findTodoIdByPosition p w).
Proof.
  intros Hout n. split.
  - split.
    + intros H.
      destruct (Z.eq_dec p 0) as [|H0]; [now left|].
      destruct (Z_lt_dec n p); [now right; left|].
      destruct (Z_lt_dec p (- n)); [now right; right|].
      exfalso.
      destruct (findTodoIdByPosition_found w p Hout) as (t & _ & Hf).
      { apply in_range_positions. fold n. lia. }
      rewrite Hf in H. discriminate H.
    + intros H.
      rewrite (findTodoIdByPosition_missing w p Hout); [reflexivity|].
      rewrite in_range_positions. fold n. lia.
  - intros Hp.
    destruct (findTodoIdByPosition_found w p Hout) as (t & Hn & Hf).
    { apply in_range_positions. fold n. lia. }
    destruct (findTodoIdByPosition_found w (p - n - 1) Hout) as (t' & Hn' & Hf').
    { apply in_range_positions. fold n. lia. }
    fold n in Hn, Hn'.
    assert (E : spec_index (p - n - 1) n = spec_index p n).
    { unfold spec_index.
      destruct (Z_gt_dec (p - n - 1) 0), (Z_gt_dec p 0); lia. }
    rewrite E in Hn'. rewrite Hn in Hn'. injection Hn' as <-.
    now rewrite Hf, Hf'.
Qed.

Lemma positions_that_resolve_witness :
  findTodoIdByPosition (1 - 2 - 1) two_todos = findTodoIdByPosition 1 two_todos
  /\ fst (findTodoIdByPosition 0 two_todos) = Return JNull.
Proof.
  split.
  - apply (proj2 (positions_that_resolve two_todos 1 eq_refl)). simpl. lia.
  - apply (proj1 (positions_that_resolve two_todos 0 eq_refl)). now left.
Defined.

(** X9.  The fuzzy lookup (the store answering) never returns the id
    of a record that does not match: an id it returns is the id of a
    record whose task contains the fragment case-insensitively, with no
    such record before it; it returns [null] exactly when no record
    matches.  In particular the full text of a stored task always
    resolves. *)
Theorem fuzzy_resolution_sound (w : World) (fragment : string) :
  outage (db w) = None ->
  (forall i,
     fst (findTodoIdByPartialTaskName fragment w) = Return (JNum i) ->
     exists before t after,
       rows (db w) = (before ++ t :: after)%list
       /\ todo_id t = i
       /\ contains_ci (todo_task t) fragment
       /\ forall u, In u before -> ~ contains_ci (todo_task u) fragment)
  /\ (fst (findTodoIdByPartialTaskName fragment w) = Return JNull
      <-> forall u, In u (rows (db w)) -> ~ contains_ci (todo_task u) fragment)
  /\ (forall t, In t (rows (db w)) ->
        fst (findTodoIdByPartialTaskName (todo_task t) w) <> Return JNull).
Proof.
  intros Hout.
  assert (Hnull : forall frag,
    fst (findTodoIdByPartialTaskName frag w) = Return JNull
    <-> forall u, In u (rows (db w)) -> ~ contains_ci (todo_task u) frag).
  { intros frag. split.
    - rewrite (findTodoIdByPartialTaskName_find w frag Hout). simpl.
      destruct (find _ _) as [t|] eqn:E; [discriminate|].
      intros _ u Hu Hc. apply includes_contains_ci in Hc.
      pose proof (find_none _ _ E u Hu) as Hn. simpl in Hn. congruence.
    - intros H. now rewrite (findTodoIdByPartialTaskName_none w frag Hout H). }
  split; [|split].
  - intros i. rewrite (findTodoIdByPartialTaskName_find w fragment Hout). simpl.
    destruct (find _ _) as [t|] eqn:E; [|discriminate].
    intros [= <-].
    destruct (find_first_inv _ _ _ E) as (before & after & Hrows & Ht & Hb).
    exists before, t, after. repeat split.
    + exact Hrows.
    + now apply includes_contains_ci.
    + intros u Hu Hc. apply includes_contains_ci in Hc.
      specialize (Hb u Hu). simpl in Hb. congruence.
  - apply Hnull.
  - intros t Ht H.
    apply (proj1 (Hnull (todo_task t)) H t Ht). apply contains_ci_refl.
Qed.

Lemma fuzzy_resolution_sound_witness :
  fst (findTodoIdByPartialTaskName "Read book" two_todos) <> Return JNull.
Proof.
  destruct (fuzzy_resolution_sound two_todos "Read book" eq_refl)
    as (_ & _ & H).
  apply (H read_book). right. left. reflexivity.
Defined.

Lemma findTodoIdByPosition_first (w : World) (t : Todo) (rest : list Todo) :
  outage (db w) = None -> rows (db w) = t :: rest ->
  findTodoIdByPosition 1 w = (Return (JNum (todo_id t)), record_call CallSelect w).
Proof.
  intros Hout E.
  destruct (findTodoIdByPosition_found w 1 Hout) as (t' & Hn & Hf).
  - apply in_range_positions. rewrite E. simpl List.length. lia.
  - rewrite E in Hn. unfold spec_index in Hn.
    destruct (Z_gt_dec 1 0); [|lia]. simpl in Hn. now inversion Hn; subst.
Qed.

Lemma findTodoIdByPosition_last (w : World) (front : list Todo) (t : Todo) :
  outage (db w) = None -> rows (db w) = (front ++ [t])%list ->
  findTodoIdByPosition (-1) w
  = (Return (JNum (todo_id t)), record_call CallSelect w).
Proof.
  intros Hout E.
  destruct (findTodoIdByPosition_found w (-1) Hout) as (t' & Hn & Hf).
  - apply in_range_positions. rewrite E, length_app. simpl List.length. lia.
  - rewrite E in Hn. unfold spec_index in Hn.
    destruct (Z_gt_dec (-1) 0); [lia|].
    rewrite length_app in Hn. simpl List.length in Hn.
    replace (Z.to_nat (Z.of_nat (List.length front + 1) + -1))
      with (List.length front) in Hn by lia.
    rewrite nth_error_app2 in Hn by lia.
    rewrite Nat.sub_diag in Hn. simpl in Hn. now inversion Hn; subst.
Qed.

Lemma NoDup_ids_snoc (front : list Todo) (t : Todo) :
  NoDup (map todo_id (front ++ [t])) ->
  forall u, In u front -> todo_id u <> todo_id t.
Proof.
  rewrite map_app. simpl. intros H u Hu E.
  apply NoDup_remove_2 in H. apply H.
  rewrite app_nil_r. rewrite <- E. now apply in_map.
Qed.

Lemma truthy_id (i : Z) : i <> 0 -> negb (truthy (JNum i)) = false.
Proof.
  intros H. simpl. destruct (Z.eqb_spec i 0); [contradiction | reflexivity].
Qed.

Lemma lookup_position_throws (w : World) (m : string) :
  outage (db w) = Some m ->
  forall p, findTodoIdByPosition p w = (Throw m, record_call CallSelect w).
Proof.
  intros Hout p. unfold findTodoIdByPosition, GetTodos, supabase_select.
  now rewrite Hout.
Qed.

Lemma lookup_task_throws (w : World) (m : string) :
  outage (db w) = Some m ->
  forall s,
    findTodoIdByPartialTaskName s w = (Throw m, record_call CallSelect w).
Proof.
  intros Hout s. unfold findTodoIdByPartialTaskName, GetTodos, supabase_select.
  now rewrite Hout.
Qed.

Section Resolver.

Variable cast_id : JsValue -> option Z.
Variable cast_text : JsValue -> option string.
Variable cast_bool : JsValue -> option bool.
Variable generate : JsValue -> Generated.
Variable JSON_parse : string -> ParseResult.

Lemma handleAiPrompt_dispatch (req : Request) (w : World) (parsed : Parsed) :
  understood generate JSON_parse req parsed ->
  handleAiPrompt cast_id cast_text cast_bool generate JSON_parse req w
  = dispatch cast_id cast_text cast_bool parsed req
      (record_call CallGenerate w).
Proof.
  intros (Hp & text & Hne & Hg & Hj). unfold handleAiPrompt.
  rewrite Hp, Hg. simpl. destruct (String.eqb_spec text ""); [contradiction|].
  simpl. now rewrite Hj.
Qed.

Lemma dispatch_update (parsed : Parsed) (req : Request) (w : World) :
  parsed_intent parsed = JStr "update" ->
  dispatch cast_id cast_text cast_bool parsed req w
  = handleUpdateIntent cast_id cast_bool parsed req w.
Proof. intros H. unfold dispatch. now rewrite H. Qed.

Lemma dispatch_delete (parsed : Parsed) (req : Request) (w : World) :
  parsed_intent parsed = JStr "delete" ->
  dispatch cast_id cast_text cast_bool parsed req w
  = handleDeleteIntent cast_id parsed req w.
Proof. intros H. unfold dispatch. now rewrite H. Qed.

(** X10.  "Delete the last task": on an answering store whose ids are
    pairwise distinct, the delete intent with position -1 and no numeric
    id answers 200 with the last record of the list, and the table is
    left with the records before it, in their order, after one select
    and one delete.  The last record's id is taken not to be 0. *)
Theorem delete_last_removes_last
    (parsed : Parsed) (req : Request) (w : World)
    (front : list Todo) (t : Todo) :
  outage (db w) = None ->
  rows (db w) = (front ++ [t])%list ->
  NoDup (map todo_id (rows (db w))) ->
  todo_id t <> 0 ->
  typeof_number (parsed_id parsed) = false ->
  parsed_position parsed = JNum (-1) ->
  fst (handleDeleteIntent cast_id parsed req w) = json 200 (TodosBody [t])
  /\ rows (db (snd (handleDeleteIntent cast_id parsed req w))) = front
  /\ calls (snd (handleDeleteIntent cast_id parsed req w))
     = (calls w ++ [CallSelect; CallDelete])%list.
Proof.
  intros Hout Hrows Hnd Hid Hpid Hpos.
  rewrite (handleDeleteIntent_position cast_id parsed req w (-1) Hpid Hpos).
  rewrite (findTodoIdByPosition_last w front t Hout Hrows).
  rewrite (truthy_id _ Hid).
  rewrite Hrows in Hnd.
  destruct (filter_target_snoc front t (NoDup_ids_snoc front t Hnd)) as [Hf Ho].
  unfold others in Ho.
  unfold DeleteTodo, supabase_delete. simpl. rewrite Hout, Hrows, Hf, Ho.
  simpl. now rewrite <- app_assoc.
Qed.

(** X11.  The two lookups hand their result to a truthiness test, so a
    record whose id is 0 cannot be reached by position or by text: with
    such a record first in the list, position 1 and the record's own
    text are both answered 404 and nothing is written, by the update and
    by the delete intent alike.  By id it can be reached: a parsed id 0
    goes straight to the delete. *)
Theorem zero_id_not_reached_by_lookup
    (parsed : Parsed) (req : Request) (w : World)
    (t : Todo) (rest : list Todo) :
  outage (db w) = None ->
  rows (db w) = t :: rest ->
  todo_id t = 0 ->
  let w1 := record_call CallSelect w in
  (typeof_number (parsed_id parsed) = false ->
   parsed_position parsed = JNum 1 ->
   handleUpdateIntent cast_id cast_bool parsed req w
   = (json 404 (ErrorBody (NoTaskAtPosition (JNum 1))), w1)
   /\ handleDeleteIntent cast_id parsed req w
      = (json 404 (ErrorBody (NoTaskAtPosition (JNum 1))), w1))
  /\ (typeof_number (parsed_id parsed) = false ->
      typeof_number (parsed_position parsed) = false ->
      parsed_task parsed = JStr (todo_task t) ->
      handleUpdateIntent cast_id cast_bool parsed req w
      = (json 404 (ErrorBody (NoTaskMatching (JStr (todo_task t)))), w1)
      /\ handleDeleteIntent cast_id parsed req w
         = (json 404 (ErrorBody (NoTaskMatching (JStr (todo_task t)))), w1))
  /\ (parsed_id parsed = JNum 0 ->
      handleDeleteIntent cast_id parsed req w
      = DeleteTodo cast_id (set_params_id (JNum 0) req) w
      /\ exists data,
           fst (handleDeleteIntent cast_id parsed req w)
           = json 200 (TodosBody (t :: data))).
Proof.
  intros Hout Hrows Hzero w1. split; [|split].
  - intros Hpid Hpos.
    rewrite (handleUpdateIntent_position _ _ _ _ _ 1 Hpid Hpos),
            (handleDeleteIntent_position _ _ _ _ 1 Hpid Hpos),
            (findTodoIdByPosition_first w t rest Hout Hrows), Hzero.
    split; reflexivity.
  - intros Hpid Hpos Htask.
    rewrite (handleUpdateIntent_task _ _ _ _ _ _ Hpid Hpos Htask),
            (handleDeleteIntent_task _ _ _ _ _ Hpid Hpos Htask).
    rewrite (findTodoIdByPartialTaskName_first w (todo_task t) [] rest t
               Hout Hrows (contains_ci_refl _)) by (intros u []).
    rewrite Hzero. split; reflexivity.
  - intros Hpid.
    assert (E : handleDeleteIntent cast_id parsed req w
                = DeleteTodo cast_id (set_params_id (JNum 0) req) w)
      by (unfold handleDeleteIntent; now rewrite Hpid).
    split; [exact E|]. rewrite E.
    unfold DeleteTodo, supabase_delete. simpl. rewrite Hout, Hrows. simpl.
    unfold has_id at 1. rewrite Hzero. simpl. eexists. reflexivity.
Qed.

(** X12.  When the store fails during a lookup by position or by text,
    the intent handlers do not answer: they reject with the store's
    error, and so does the natural-language endpoint, which returns
    their promise from inside its [try] without awaiting it.  The same
    failure on the id path is answered 500 with the store's message. *)
Theorem lookup_failure_rejects
    (parsed : Parsed) (req : Request) (w : World) (m : string) :
  outage (db w) = Some m ->
  (typeof_number (parsed_id parsed) = false ->
   typeof_number (parsed_position parsed) = true
   \/ typeof_string (parsed_task parsed) = true ->
   handleUpdateIntent cast_id cast_bool parsed req w
   = (Throw m, record_call CallSelect w)
   /\ handleDeleteIntent cast_id parsed req w
      = (Throw m, record_call CallSelect w)
   /\ (understood generate JSON_parse req parsed ->
       parsed_intent parsed = JStr "update"
       \/ parsed_intent parsed = JStr "delete" ->
       fst (handleAiPrompt cast_id cast_text cast_bool generate JSON_parse
              req w) = Throw m))
  /\ (typeof_number (parsed_id parsed) = true ->
      fst (handleUpdateIntent cast_id cast_bool parsed req w)
      = json 500 (ErrorBody (Message m))
      /\ fst (handleDeleteIntent cast_id parsed req w)
         = json 500 (ErrorBody (Message m))).
Proof.
  intros Hout.
  pose proof (fun p => lookup_position_throws w m Hout p) as Hpos.
  pose proof (fun s => lookup_task_throws w m Hout s) as Htask.
  split.
  - intros Hpid Href.
    assert (Hu : handleUpdateIntent cast_id cast_bool parsed req w
                 = (Throw m, record_call CallSelect w)).
    { unfold handleUpdateIntent.
      destruct (parsed_id parsed); try discriminate;
        destruct (parsed_position parsed); rewrite ?Hpos; try reflexivity;
        destruct (parsed_task parsed); rewrite ?Htask; try reflexivity;
        destruct Href; discriminate. }
    assert (Hd : handleDeleteIntent cast_id parsed req w
                 = (Throw m, record_call CallSelect w)).
    { unfold handleDeleteIntent.
      destruct (parsed_id parsed); try discriminate;
        destruct (parsed_position parsed); rewrite ?Hpos; try reflexivity;
        destruct (parsed_task parsed); rewrite ?Htask; try reflexivity;
        destruct Href; discriminate. }
    split; [exact Hu | split; [exact Hd|]].
    intros Hund Hint. rewrite (handleAiPrompt_dispatch req w parsed Hund).
    assert (Hw : outage (db (record_call CallGenerate w)) = Some m)
      by exact Hout.
    destruct Hint as [Hi|Hi].
    + rewrite (dispatch_update _ _ _ Hi).
      unfold handleUpdateIntent.
      destruct (parsed_id parsed); try discriminate;
        destruct (parsed_position parsed);
        rewrite ?(lookup_position_throws _ m Hw); try reflexivity;
        destruct (parsed_task parsed);
        rewrite ?(lookup_task_throws _ m Hw); try reflexivity;
        destruct Href; discriminate.
    + rewrite (dispatch_delete _ _ _ Hi).
      unfold handleDeleteIntent.
      destruct (parsed_id parsed); try discriminate;
        destruct (parsed_position parsed);
        rewrite ?(lookup_position_throws _ m Hw); try reflexivity;
        destruct (parsed_task parsed);
        rewrite ?(lookup_task_throws _ m Hw); try reflexivity;
        destruct Href; discriminate.
  - intros Hpid. unfold handleUpdateIntent, handleDeleteIntent.
    destruct (parsed_id parsed); try discriminate.
    unfold UpdateTodo, DeleteTodo, supabase_update, supabase_delete.
    rewrite Hout. split; reflexivity.
Qed.

End Resolver.

Lemma delete_last_removes_last_witness :
  fst (handleDeleteIntent strict_id
         (delete_intent JUndefined (JNum (-1)) JUndefined)
         (ai_request "delete last task") two_todos)
  = json 200 (TodosBody [read_book])
  /\ rows (db (snd (handleDeleteIntent strict_id
                      (delete_intent JUndefined (JNum (-1)) JUndefined)
                      (ai_request "delete last task") two_todos)))
     = [buy_milk].
Proof.
  destruct (delete_last_removes_last strict_id
              (delete_intent JUndefined (JNum (-1)) JUndefined)
              (ai_request "delete last task") two_todos [buy_milk] read_book)
    as (Ha & Hr & _);
    [reflexivity | reflexivity | exact (proj1 two_todos_fresh)
    | discriminate | reflexivity | reflexivity |].
  split; [exact Ha | exact Hr].
Defined.

Lemma zero_id_not_reached_by_lookup_witness :
  handleDeleteIntent strict_id (delete_intent JUndefined (JNum 1) JUndefined)
    empty_request zero_first
  = (json 404 (ErrorBody (NoTaskAtPosition (JNum 1))),
     record_call CallSelect zero_first).
Proof.
  destruct (zero_id_not_reached_by_lookup strict_id strict_bool
              (delete_intent JUndefined (JNum 1) JUndefined) empty_request
              zero_first (mkTodo 0 "Water plants" false) [read_book]
              eq_refl eq_refl eq_refl) as (Hpos & _).
  exact (proj2 (Hpos eq_refl eq_refl)).
Defined.

Lemma lookup_failure_rejects_witness :
  handleDeleteIntent strict_id (delete_intent JUndefined (JNum 1) JUndefined)
    empty_request (failing "connection refused" two_todos)
  = (Throw "connection refused",
     record_call CallSelect (failing "connection refused" two_todos)).
Proof.
  destruct (lookup_failure_rejects strict_id strict_text strict_bool
              model_reply
              (parses_to (delete_intent JUndefined (JNum 1) JUndefined))
              (delete_intent JUndefined (JNum 1) JUndefined) empty_request
              (failing "connection refused" two_todos) "connection refused"
              eq_refl) as (H & _).
  destruct (H eq_refl (or_introl eq_refl)) as (_ & Hd & _).
  exact Hd.
Defined.

Section Endpoint.

Variable cast_id : JsValue -> option Z.
Variable cast_text : JsValue -> option string.
Variable cast_bool : JsValue -> option bool.
Variable generate : JsValue -> Generated.
Variable JSON_parse : string -> ParseResult.

Lemma dispatch_create (parsed : Parsed) (req : Request) (w : World) :
  parsed_intent parsed = JStr "create" ->
  dispatch cast_id cast_text cast_bool parsed req w
  = if negb (truthy (parsed_task parsed))
    then (json 400 (ErrorBody (Message "Task description required for create")),
          w)
    else CreateTodo cast_text (set_body_task (parsed_task parsed) req) w.
Proof. intros H. unfold dispatch. now rewrite H. Qed.

(** X13.  The natural-language endpoint reaches the store only through
    an answer that parses to one of the four intents.  In every other
    case (no prompt, a failed or empty answer, text that does not parse,
    another intent) it answers with an error of status 400 or 500 and the
    world is as it was, the one text-generation call apart. *)
Theorem store_reached_only_through_intent (req : Request) (w : World) :
  (exists parsed intent,
     understood generate JSON_parse req parsed
     /\ parsed_intent parsed = JStr intent
     /\ In intent ["create"; "read"; "update"; "delete"])
  \/ ((snd (handleAiPrompt cast_id cast_text cast_bool generate JSON_parse
              req w) = w
       \/ snd (handleAiPrompt cast_id cast_text cast_bool generate JSON_parse
                 req w) = record_call CallGenerate w)
      /\ exists st msg,
           fst (handleAiPrompt cast_id cast_text cast_bool generate JSON_parse
                  req w) = json st (ErrorBody (Message msg))
           /\ (st = 400 \/ st = 500)).
Proof.
  unfold handleAiPrompt.
  destruct (truthy (body_prompt req)) eqn:Hp; simpl negb; cbv iota.
  2:{ right. split; [now left|]. do 2 eexists. split; [reflexivity | now left]. }
  assert (Herr : forall st msg, st = 400 \/ st = 500 ->
            (snd (json st (ErrorBody (Message msg)), record_call CallGenerate w)
             = w
             \/ snd (json st (ErrorBody (Message msg)),
                     record_call CallGenerate w)
                = record_call CallGenerate w)
            /\ exists st' msg',
                 fst (json st (ErrorBody (Message msg)),
                      record_call CallGenerate w)
                 = json st' (ErrorBody (Message msg'))
                 /\ (st' = 400 \/ st' = 500)).
  { intros st msg Hst. split; [now right|]. now exists st, msg. }
  destruct (generate (body_prompt req)) as [e|m|rawText] eqn:Hg;
    [right; apply Herr; now right | right; apply Herr; now right |].
  destruct (truthy rawText) eqn:Hr; simpl negb; cbv iota;
    [|right; apply Herr; now right].
  destruct rawText as [| |b|n|text|]; try (right; apply Herr; now right).
  destruct (JSON_parse (cleanJsonString text)) as [| |parsed] eqn:Hj;
    try (right; apply Herr; now right).
  assert (Hund : understood generate JSON_parse req parsed).
  { split; [exact Hp|]. exists text. repeat split; try assumption.
    intros ->. discriminate Hr. }
  unfold dispatch.
  destruct (parsed_intent parsed) as [| |b|n|intent|] eqn:Hi;
    try (right; apply Herr; now left).
  destruct (String.eqb_spec intent "create") as [->|_].
  { left. exists parsed, "create". simpl. tauto. }
  destruct (String.eqb_spec intent "read") as [->|_].
  { left. exists parsed, "read". simpl. tauto. }
  destruct (String.eqb_spec intent "update") as [->|_].
  { left. exists parsed, "update". simpl. tauto. }
  destruct (String.eqb_spec intent "delete") as [->|_].
  { left. exists parsed, "delete". simpl. tauto. }
  right. apply Herr. now left.
Qed.

(** X14.  A create intent through the natural-language endpoint: with
    no task (or a falsy one) it is answered 400 before the store is
    called; with a task it is what [CreateTodo] does with that task in
    the body, so a [task] the client put in the body is overwritten, the
    empty-task answer of [CreateTodo] never comes back, and a non-empty
    task text on an answering store is answered 201 with the new
    record. *)
Theorem ai_create (req : Request) (w : World) (parsed : Parsed) :
  understood generate JSON_parse req parsed ->
  parsed_intent parsed = JStr "create" ->
  let w1 := record_call CallGenerate w in
  (truthy (parsed_task parsed) = false ->
   handleAiPrompt cast_id cast_text cast_bool generate JSON_parse req w
   = (json 400 (ErrorBody (Message "Task description required for create")),
      w1))
  /\ (truthy (parsed_task parsed) = true ->
      handleAiPrompt cast_id cast_text cast_bool generate JSON_parse req w
      = CreateTodo cast_text (set_body_task (parsed_task parsed) req) w1
      /\ fst (handleAiPrompt cast_id cast_text cast_bool generate JSON_parse
                req w)
         <> json 400 (ErrorBody (Message "Title and description are required")))
  /\ (forall s, parsed_task parsed = JStr s -> s <> "" ->
      outage (db w) = None ->
      fst (handleAiPrompt cast_id cast_text cast_bool generate JSON_parse req w)
      = json 201 (TodoBody (mkTodo (next_id (db w)) s false)))
  /\ (forall v,
        handleAiPrompt cast_id cast_text cast_bool generate JSON_parse
          (set_body_task v req) w
        = handleAiPrompt cast_id cast_text cast_bool generate JSON_parse req w).
Proof.
  intros Hund Hint w1.
  pose proof (handleAiPrompt_dispatch cast_id cast_text cast_bool generate
                JSON_parse req w parsed Hund) as E.
  rewrite (dispatch_create _ _ _ Hint) in E. fold w1 in E.
  split; [|split; [|split]].
  - intros Ht. rewrite E, Ht. reflexivity.
  - intros Ht. rewrite E, Ht. simpl negb. cbv iota. split; [reflexivity|].
    unfold CreateTodo, supabase_insert.
    change (body_task (set_body_task (parsed_task parsed) req))
      with (parsed_task parsed).
    rewrite Ht. simpl negb. cbv iota.
    destruct (outage (db w1)); [discriminate|].
    destruct (column_text cast_text (parsed_task parsed)); discriminate.
  - intros s Hs Hne Hout. rewrite E, Hs. simpl truthy.
    destruct (String.eqb_spec s ""); [contradiction|]. simpl negb. cbv iota.
    rewrite (CreateTodo_created cast_text _ w1 s);
      [reflexivity | reflexivity | exact Hne | exact Hout].
  - intros v.
    assert (Hund' : understood generate JSON_parse (set_body_task v req) parsed)
      by exact Hund.
    rewrite (handleAiPrompt_dispatch cast_id cast_text cast_bool generate
               JSON_parse _ w parsed Hund'), E.
    rewrite (dispatch_create _ _ _ Hint). reflexivity.
Qed.


End Endpoint.

Lemma sample_understood (parsed : Parsed) :
  understood model_reply (parses_to parsed) (ai_request "please") parsed.
Proof.
  split; [reflexivity|]. exists "{ }".
  split; [discriminate | split; reflexivity].
Defined.

Lemma ai_create_witness :
  fst (handleAiPrompt strict_id strict_text strict_bool model_reply
         (parses_to (mkParsed (JStr "create") JUndefined JUndefined
                       (JStr "Walk dog") JUndefined JUndefined))
         (ai_request "please") two_todos)
  = json 201 (TodoBody (mkTodo 3 "Walk dog" false)).
Proof.
  destruct (ai_create strict_id strict_text strict_bool model_reply
              (parses_to (mkParsed (JStr "create") JUndefined JUndefined
                            (JStr "Walk dog") JUndefined JUndefined))
              (ai_request "please") two_todos
              (mkParsed (JStr "create") JUndefined JUndefined
                 (JStr "Walk dog") JUndefined JUndefined)
              (sample_understood _) eq_refl) as (_ & _ & H & _).
  apply (H "Walk dog"); [reflexivity | discriminate | reflexivity].
Defined.


(** ** More on the cleaning step *)

Lemma trimEnd_app (a b : string) :
  trimEnd (a ++ b)
  = match trimEnd b with
    | EmptyString => trimEnd a
    | r => a ++ r
    end.
Proof.
  induction a as [|c a IH].
  - simpl. now destruct (trimEnd b).
  - change (trimEnd (String c a ++ b))
      with (match trimEnd (a ++ b) with
            | EmptyString =>
                if is_space c then EmptyString else String c EmptyString
            | r => String c r
            end).
    rewrite IH. destruct (trimEnd b) as [|d r]; [reflexivity|].
    destruct a; reflexivity.
Qed.

Lemma trim_commute (s : string) : trimStart (trimEnd s) = trimEnd (trimStart s).
Proof.
  induction s as [|c s IH]; [reflexivity|].
  cbn [trimStart]. destruct (is_space c) eqn:E.
  - rewrite <- IH. cbn [trimEnd]. destruct (trimEnd s) as [|d r].
    + now rewrite E.
    + cbn [trimStart]. now rewrite E.
  - cbn [trimEnd]. destruct (trimEnd s) as [|d r]; rewrite ?E;
      cbn [trimStart]; now rewrite E.
Qed.

Lemma trim_idem (s : string) : trim (trim s) = trim s.
Proof.
  unfold trim. rewrite <- (trim_commute (trimEnd (trimStart s))).
  rewrite trimEnd_idem, trim_commute. now rewrite trimStart_idem.
Qed.

Lemma first_char_append (a b : string) (c : ascii) :
  first_char a = Some c -> first_char (a ++ b) = Some c.
Proof. destruct a; simpl; [discriminate | auto]. Qed.

Lemma first_char_trim (s : string) (c : ascii) :
  first_char (trim s) = Some c -> first_char (trimStart s) = Some c.
Proof.
  unfold trim. destruct (trimStart s) as [|d r]; simpl; [discriminate|].
  destruct (trimEnd r); [destruct (is_space d)|]; simpl; congruence.
Qed.

(** X16.  Each marker is optional on its own: content of JSON shape
    followed by the closing marker only, or preceded by the opening
    marker only, is cleaned to the trimmed content, as it is with both
    markers or with none. *)
Theorem one_marker_is_enough (ws content : string) :
  all_space ws = true ->
  json_shaped content = true ->
  cleanJsonString (content ++ fence_close ++ ws) = trim content
  /\ cleanJsonString (ws ++ fence_open ++ content) = trim content.
Proof.
  intros Hws Hc. pose proof Hc as Hshape. unfold json_shaped in Hc.
  destruct (first_char (trim content)) as [a|] eqn:Ha; [|discriminate].
  destruct (last_char (trim content)) as [b|] eqn:Hb; [|discriminate].
  apply andb_true_iff in Hc as [Hs He].
  split.
  - unfold cleanJsonString.
    assert (Ht : trim (content ++ fence_close ++ ws)
                 = trimStart content ++ fence_close).
    { unfold trim. rewrite trimStart_keeps by reflexivity.
      rewrite <- append_assoc, trimEnd_skips by assumption.
      apply trimEnd_keeps; [reflexivity | discriminate]. }
    rewrite Ht. unfold strip_fence_open.
    rewrite (starts_with_first fence_open _ "`"%char a);
      [| reflexivity
       | apply first_char_append; now apply first_char_trim
       | now apply json_start_not_tick].
    rewrite strip_fence_close_app. unfold trim. now rewrite trimStart_idem.
  - unfold cleanJsonString.
    assert (Hne : trimEnd content <> "").
    { intros E. unfold trim in Ha. rewrite <- trim_commute, E in Ha.
      discriminate Ha. }
    assert (Ht : trim (ws ++ fence_open ++ content)
                 = fence_open ++ trimEnd content).
    { unfold trim. rewrite trimStart_skips by assumption.
      change (trimStart (fence_open ++ content)) with (fence_open ++ content).
      rewrite trimEnd_app. destruct (trimEnd content); [contradiction|].
      reflexivity. }
    rewrite Ht.
    change (strip_fence_open (fence_open ++ trimEnd content))
      with (trimStart (trimEnd content)).
    rewrite trim_commute. fold (trim content).
    rewrite (strip_fence_close_none _ b Hb (json_end_not_tick _ He)).
    apply trim_idem.
Qed.

Lemma one_marker_is_enough_witness :
  cleanJsonString ("{ 1 }" ++ newline ++ fence_close ++ newline) = "{ 1 }"
  /\ cleanJsonString (newline ++ fence_open ++ newline ++ "{ 1 }") = "{ 1 }".
Proof.
  split.
  - exact (proj1 (one_marker_is_enough newline ("{ 1 }" ++ newline)
                    eq_refl eq_refl)).
  - exact (proj2 (one_marker_is_enough newline (newline ++ "{ 1 }")
                    eq_refl eq_refl)).
Defined.

(** X17.  Only the marker tagged [json], in lower case, is an opening
    marker.  A response fenced with bare [```] markers (or with another
    tag) keeps its opening marker: the cleaned text is the opening
    [```] followed by the content without its trailing white space, so
    it begins with a backquote and is not of JSON shape. *)
Theorem untagged_fence_is_kept (content : string) :
  starts_with "json" (content ++ fence_close) = false ->
  cleanJsonString (fence_close ++ content ++ fence_close)
  = fence_close ++ trimEnd content
  /\ json_shaped (cleanJsonString (fence_close ++ content ++ fence_close))
     = false.
Proof.
  intros Htag.
  assert (E : cleanJsonString (fence_close ++ content ++ fence_close)
              = fence_close ++ trimEnd content).
  { unfold cleanJsonString.
    assert (Ht : trim (fence_close ++ content ++ fence_close)
                 = fence_close ++ content ++ fence_close).
    { unfold trim.
      change (trimStart (fence_close ++ content ++ fence_close))
        with (fence_close ++ content ++ fence_close).
      rewrite <- append_assoc.
      apply trimEnd_keeps; [reflexivity | discriminate]. }
    rewrite Ht. unfold strip_fence_open.
    change (starts_with fence_open (fence_close ++ content ++ fence_close))
      with (starts_with "json" (content ++ fence_close)).
    rewrite Htag, <- append_assoc, strip_fence_close_app.
    unfold trim.
    change (trimStart (fence_close ++ content)) with (fence_close ++ content).
    rewrite trimEnd_app. now destruct (trimEnd content). }
  split; [exact E|]. rewrite E. unfold json_shaped, trim.
  change (trimStart (fence_close ++ trimEnd content))
    with (fence_close ++ trimEnd content).
  rewrite trimEnd_app, trimEnd_idem.
  destruct (trimEnd content) as [|d r]; [reflexivity|].
  change (first_char (fence_close ++ String d r)) with (Some "`"%char).
  now destruct (last_char (fence_close ++ String d r)).
Qed.

Lemma untagged_fence_is_kept_witness :
  cleanJsonString (fence_close ++ (newline ++ "{ 1 }" ++ newline) ++ fence_close)
  = fence_close ++ newline ++ "{ 1 }".
Proof.
  exact (proj1 (untagged_fence_is_kept (newline ++ "{ 1 }" ++ newline) eq_refl)).
Defined.

(** ** Further behaviour of the handlers *)

Section Further.

Variable cast_id : JsValue -> option Z.
Variable cast_text : JsValue -> option string.
Variable cast_bool : JsValue -> option bool.
Variable generate : JsValue -> Generated.
Variable JSON_parse : string -> ParseResult.

(** X18.  An update intent copies [done] into the request only when the
    model gave a boolean.  Otherwise the update is sent with the [done]
    the client put in the body of its own request to the
    natural-language endpoint: the answer and the table are those of
    [UpdateTodo] on the parsed id with the client's [done]. *)
Theorem client_done_passes_through
    (req : Request) (w : World) (parsed : Parsed) (n : Z) :
  understood generate JSON_parse req parsed ->
  parsed_intent parsed = JStr "update" ->
  parsed_id parsed = JNum n ->
  typeof_boolean (parsed_done parsed) = false ->
  fst (handleAiPrompt cast_id cast_text cast_bool generate JSON_parse req w)
  = fst (UpdateTodo cast_id cast_bool
           (mkRequest (JNum n) JUndefined JUndefined (body_done req)) w)
  /\ db (snd (handleAiPrompt cast_id cast_text cast_bool generate JSON_parse
                req w))
     = db (snd (UpdateTodo cast_id cast_bool
                  (mkRequest (JNum n) JUndefined JUndefined (body_done req)) w)).
Proof.
  intros Hund Hint Hid Hdone.
  rewrite (handleAiPrompt_dispatch cast_id cast_text cast_bool generate
             JSON_parse req w parsed Hund).
  rewrite (dispatch_update cast_id cast_text cast_bool _ _ _ Hint).
  unfold handleUpdateIntent. rewrite Hid.
  unfold update_request. rewrite Hdone.
  unfold UpdateTodo, supabase_update.
  destruct (truthy (parsed_newTask parsed)); simpl;
    destruct (outage (db w)); try (split; reflexivity);
    destruct (body_done req); try (split; reflexivity);
    destruct (column_bool cast_bool _); split; reflexivity.
Qed.

(** X19.  An update intent that names its record by text: on an
    answering store whose ids are pairwise distinct, with a boolean
    [done] and no numeric id or position, the first record whose task
    contains the fragment (its id not being 0) gets the flag, the answer
    is 200 with that one record as updated, and the table then holds,
    in some order, that record as updated and all the other records as
    they were. *)
Theorem update_by_text_patches_first_match
    (parsed : Parsed) (req : Request) (w : World)
    (fragment : string) (b : bool) (before after : list Todo) (t : Todo) :
  outage (db w) = None ->
  rows (db w) = (before ++ t :: after)%list ->
  NoDup (map todo_id (rows (db w))) ->
  contains_ci (todo_task t) fragment ->
  (forall u, In u before -> ~ contains_ci (todo_task u) fragment) ->
  todo_id t <> 0 ->
  typeof_number (parsed_id parsed) = false ->
  typeof_number (parsed_position parsed) = false ->
  parsed_task parsed = JStr fragment ->
  parsed_done parsed = JBool b ->
  fst (handleUpdateIntent cast_id cast_bool parsed req w)
  = json 200 (TodosBody [set_done b t])
  /\ Permutation
       (rows (db (snd (handleUpdateIntent cast_id cast_bool parsed req w))))
       (set_done b t :: before ++ after).
Proof.
  intros Hout Hrows Hnd Ht Hb Hid Hpid Hpos Htask Hdone.
  rewrite (handleUpdateIntent_task cast_id cast_bool parsed req w fragment
             Hpid Hpos Htask).
  rewrite (findTodoIdByPartialTaskName_first w fragment before after t
             Hout Hrows Ht Hb).
  rewrite (truthy_id _ Hid).
  rewrite Hrows in Hnd. rewrite map_app in Hnd. simpl in Hnd.
  assert (Hbefore : forall u, In u before -> todo_id u <> todo_id t).
  { intros u Hu E. apply NoDup_remove_2 in Hnd. apply Hnd.
    apply in_or_app. left. rewrite <- E. now apply in_map. }
  assert (Hafter : forall u, In u after -> todo_id u <> todo_id t).
  { intros u Hu E. apply NoDup_remove_2 in Hnd. apply Hnd.
    apply in_or_app. right. rewrite <- E. now apply in_map. }
  assert (Hmap : map (patched (todo_id t) b) (before ++ t :: after)
                 = (before ++ set_done b t :: after)%list).
  { rewrite map_app. simpl.
    rewrite (map_patched_others _ b before Hbefore),
            (map_patched_others _ b after Hafter).
    unfold patched at 1, has_id. now rewrite Z.eqb_refl. }
  assert (Hfilter : filter (has_id (todo_id t))
                      (before ++ set_done b t :: after) = [set_done b t]).
  { rewrite filter_app. simpl. unfold has_id at 2. simpl.
    rewrite Z.eqb_refl.
    rewrite (filter_nothing (has_id (todo_id t)) before),
            (filter_nothing (has_id (todo_id t)) after); [reflexivity | |].
    - intros u Hu. exact (has_id_false _ u (Hafter u Hu)).
    - intros u Hu. exact (has_id_false _ u (Hbefore u Hu)). }
  unfold UpdateTodo, supabase_update, update_request.
  rewrite Hdone. simpl typeof_boolean. cbv iota.
  destruct (truthy (parsed_newTask parsed)); simpl;
    rewrite Hout, Hrows, Hmap, Hfilter;
    (split; [reflexivity | symmetry; apply Permutation_middle]).
Qed.

(** X20.  With the backend failing, every CRUD route answers 500 with
    the store's message and the table is as it was: a create with a
    task, a list, an update and a delete alike.  Called without a
    response object, [GetTodos] throws the error instead. *)
Theorem store_failure_answers_500 (req : Request) (w : World) (m : string) :
  outage (db w) = Some m ->
  (truthy (body_task req) = true ->
   CreateTodo cast_text req w
   = (json 500 (ErrorBody (Message m)), record_call CallInsert w))
  /\ GetTodos true w
     = (Return (Answered (mkResponse 500 (ErrorBody (Message m)))),
        record_call CallSelect w)
  /\ GetTodos false w = (Throw m, record_call CallSelect w)
  /\ UpdateTodo cast_id cast_bool req w
     = (json 500 (ErrorBody (Message m)), record_call CallUpdate w)
  /\ DeleteTodo cast_id req w
     = (json 500 (ErrorBody (Message m)), record_call CallDelete w).
Proof.
  intros Hout.
  unfold CreateTodo, GetTodos, UpdateTodo, DeleteTodo, supabase_insert,
    supabase_select, supabase_update, supabase_delete.
  rewrite Hout. repeat split. intros Ht. now rewrite Ht.
Qed.

End Further.

Lemma client_done_passes_through_witness :
  fst (handleAiPrompt strict_id strict_text strict_bool model_reply
         (parses_to (update_intent (JNum 2) JUndefined JUndefined JUndefined
                       JUndefined))
         (mkRequest JUndefined (JStr "please") JUndefined (JBool true))
         two_todos)
  = json 200 (TodosBody [mkTodo 2 "Read book" true]).
Proof.
  assert (Hund : understood model_reply
            (parses_to (update_intent (JNum 2) JUndefined JUndefined JUndefined
                          JUndefined))
            (mkRequest JUndefined (JStr "please") JUndefined (JBool true))
            (update_intent (JNum 2) JUndefined JUndefined JUndefined
               JUndefined)).
  { split; [reflexivity|]. exists "{ }".
    split; [discriminate | split; reflexivity]. }
  rewrite (proj1 (client_done_passes_through strict_id strict_text strict_bool
                    model_reply
                    (parses_to (update_intent (JNum 2) JUndefined JUndefined
                                  JUndefined JUndefined))
                    (mkRequest JUndefined (JStr "please") JUndefined
                       (JBool true))
                    two_todos
                    (update_intent (JNum 2) JUndefined JUndefined JUndefined
                       JUndefined)
                    2 Hund eq_refl eq_refl eq_refl)).
  reflexivity.
Defined.

Lemma update_by_text_patches_first_match_witness :
  fst (handleUpdateIntent strict_id strict_bool
         (update_intent JUndefined JUndefined (JStr "BOOK") JUndefined
            (JBool true))
         empty_request two_todos)
  = json 200 (TodosBody [mkTodo 2 "Read book" true]).
Proof.
  refine (proj1 (update_by_text_patches_first_match strict_id strict_bool
                   (update_intent JUndefined JUndefined (JStr "BOOK")
                      JUndefined (JBool true))
                   empty_request two_todos "BOOK" true [buy_milk] [] read_book
                   eq_refl eq_refl (proj1 two_todos_fresh) _ _ _
                   eq_refl eq_refl eq_refl eq_refl)).
  - exists "read ", "". reflexivity.
  - intros u [<-|[]] H. apply includes_contains_ci in H. discriminate H.
  - discriminate.
Defined.

Lemma store_failure_answers_500_witness :
  DeleteTodo strict_id (id_request 2) (failing "connection refused" two_todos)
  = (json 500 (ErrorBody (Message "connection refused")),
     record_call CallDelete (failing "connection refused" two_todos)).
Proof.
  destruct (store_failure_answers_500 strict_id strict_text strict_bool
              (id_request 2) (failing "connection refused" two_todos)
              "connection refused" eq_refl) as (_ & _ & _ & _ & H).
  exact H.
Defined.
